(** * FantasyPros MCP server: a shallow embedding of [src/index.ts]

    The server is a thin adapter: a static tool registry, a dispatcher
    on the tool name, five handlers that each build one HTTP GET, and a
    catch block that turns HTTP failures into flagged results.

    The embedding follows the TypeScript text:
    - arguments are [any], so they are untyped JavaScript values
      ([JSValue]); destructuring, defaults, truthiness tests and
      template literals are the JavaScript ones;
    - [async] handlers live in a small monad [Async] that reads the
      outside world (the wall clock and how axios settles a request),
      may throw, and records every request it hands to [axios.get];
    - [JSON.stringify] belongs to the JavaScript runtime and is a
      parameter of the development. *)

From stdpp Require Import gmap strings list fin_maps pretty.

Set Warnings "-register-all".
Open Scope string_scope.

(** ** JavaScript values *)

(** The values of JSON, and [undefined].  [JNum z] is the number that
    the integer literal [z] denotes: [z] itself when it is a double (as
    every integer below 2^53 in magnitude is), the nearest double
    otherwise; fractions are outside the model.  An object is a finite
    map from its own property names to values. *)
Inductive JSValue : Type :=
  | JUndefined
  | JNull
  | JBool (b : bool)
  | JNum (z : Z)
  | JStr (s : string)
  | JArr (l : list JSValue)
  | JObj (m : gmap string JSValue).

(** [ToBoolean]: what [if (v)], [!v] and [v || w] test. *)
Definition ToBoolean (v : JSValue) : bool :=
  match v with
  | JUndefined | JNull => false
  | JBool b => b
  | JNum z => negb (z =? 0)%Z
  | JStr s => negb (String.eqb s "")
  | JArr _ | JObj _ => true
  end.

(** ** Printing a number *)

(** The double nearest to the natural number [z], ties to the even
    mantissa; [None] past the largest double, where the number is
    [Infinity]. *)
Definition nearest_double (z : Z) : option Z :=
  let b := Z.log2 z in
  if (b <? 53)%Z then Some z else
  let sh := (b - 52)%Z in
  let q := Z.shiftr z sh in
  let r := (z - Z.shiftl q sh)%Z in
  let half := Z.shiftl 1 (sh - 1) in
  let q' :=
    if (half <? r)%Z || ((r =? half)%Z && Z.odd q) then (q + 1)%Z else q in
  let d := Z.shiftl q' sh in
  if (d <? 2 ^ 1024)%Z then Some d else None.

(** Whether the decimal [s] followed by [e] zeros denotes the double
    [d]. *)
Definition reads_as (d s e : Z) : bool :=
  match nearest_double (s * 10 ^ e) with
  | Some d' => (d' =? d)%Z
  | None => false
  end.

(** The [k]-digit decimal, if any, that denotes the double [d] of [n]
    digits: the one nearest to [d], the even one on a tie.  The result
    is the digits and the number of zeros after them. *)
Definition candidate (d n k : Z) : option (Z * Z) :=
  let e := (n - k)%Z in
  let lo := (d / 10 ^ e)%Z in
  let hi := (lo + 1)%Z in
  let pick s := if (s =? 10 ^ k)%Z then (1, e + k)%Z else (s, e) in
  match reads_as d lo e, reads_as d hi e with
  | true, true =>
      let below := (d - lo * 10 ^ e)%Z in
      let above := (hi * 10 ^ e - d)%Z in
      if (below <? above)%Z then Some (pick lo)
      else if (above <? below)%Z then Some (pick hi)
      else if Z.even lo then Some (pick lo) else Some (pick hi)
  | true, false => Some (pick lo)
  | false, true => Some (pick hi)
  | false, false => None
  end.

(** The shortest decimal that denotes [d], trying [k], [k + 1], ...
    digits; seventeen digits always suffice. *)
Fixpoint shortest (d n k : Z) (fuel : nat) : Z * Z :=
  match fuel with
  | O => (d, 0%Z)
  | S fuel' =>
      match candidate d n k with
      | Some c => c
      | None => shortest d n (k + 1) fuel'
      end
  end.

Fixpoint zeros (n : nat) : string :=
  match n with
  | O => ""
  | S n' => "0" +:+ zeros n'
  end.

(** The digits [s] and [e] zeros as JavaScript writes them: in full up
    to 21 places, with an exponent beyond. *)
Definition format_digits (s e : Z) : string :=
  let digits := pretty s in
  let k := Z.of_nat (String.length digits) in
  let n := (k + e)%Z in
  if (n <=? 21)%Z then digits +:+ zeros (Z.to_nat e)
  else
    match digits with
    | String c rest =>
        String c (if (k =? 1)%Z then "" else "." +:+ rest) +:+
        "e+" +:+ pretty (n - 1)%Z
    | EmptyString => ""
    end.

(** [Number.prototype.toString] on the number of the literal [z]: an
    integer below 2^53 in magnitude prints as it is; a larger one
    prints the shortest decimal that denotes its double. *)
Definition Number_toString (z : Z) : string :=
  if (Z.abs z <? 2 ^ 53)%Z then pretty z
  else
    (if (z <? 0)%Z then "-" else "") +:+
    match nearest_double (Z.abs z) with
    | Some d =>
        let n := Z.of_nat (String.length (pretty d)) in
        let '(s, e) := shortest d n 1 17 in
        format_digits s e
    | None => "Infinity"
    end.

(** [ToString]: what a template literal [`${v}`] inserts.  An array
    joins its elements with commas, [undefined] and [null] elements as
    empty strings.  An object prints through the inherited [toString],
    unless it has a member of that name of its own: that member is data,
    not a function, and the conversion is a [TypeError] ([None]). *)
Fixpoint ToString (v : JSValue) : option string :=
  match v with
  | JUndefined => Some "undefined"
  | JNull => Some "null"
  | JBool true => Some "true"
  | JBool false => Some "false"
  | JNum z => Some (Number_toString z)
  | JStr s => Some s
  | JArr l =>
      String.concat "," <$>
        mapM (λ x, match x with
                   | JUndefined | JNull => Some ""
                   | _ => ToString x
                   end) l
  | JObj m =>
      match m !! "toString" with
      | Some _ => None
      | None => Some "[object Object]"
      end
  end.

(** [a || b] *)
Definition js_or (a b : JSValue) : JSValue :=
  if ToBoolean a then a else b.

(** [o.k] for a property [k] that no prototype defines: the own
    property of an object, [undefined] on anything else that can be
    read from. *)
Definition get_prop (o : JSValue) (k : string) : JSValue :=
  match o with
  | JObj m => default JUndefined (m !! k)
  | _ => JUndefined
  end.

(** [o?.k]: [undefined] when [o] is [undefined] or [null]. *)
Definition opt_prop (o : JSValue) (k : string) : JSValue :=
  match o with
  | JUndefined | JNull => JUndefined
  | _ => get_prop o k
  end.

(** A destructured property [{ k }] of an argument object. *)
Definition field (args : gmap string JSValue) (k : string) : JSValue :=
  default JUndefined (args !! k).

(** A destructured property with a default, [{ k = d }]: the default is
    taken exactly when the property reads [undefined]. *)
Definition field_default (args : gmap string JSValue) (k : string)
    (d : JSValue) : JSValue :=
  match field args k with
  | JUndefined => d
  | v => v
  end.

(** ** HTTP: axios *)

(** The request axios sends for [instance.get(url, { params })]: the
    instance's configuration merged with the call's. *)
Record HttpRequest := {
  method : string;
  baseURL : string;
  headers : gmap string JSValue;
  url : string;
  params : gmap string JSValue;
}.

Record AxiosResponse := {
  status : Z;
  data : JSValue;
}.

(** An [AxiosError]: a transport failure has no [response]; a non-2xx
    answer carries it. *)
Record AxiosError := {
  message : string;
  response : option AxiosResponse;
}.

Record AxiosInstance := {
  defaults_baseURL : string;
  defaults_headers : gmap string JSValue;
}.

(** ** Exceptions and results *)

(** The JSON-RPC members of the SDK's [ErrorCode]; the call handler
    uses [MethodNotFound]. *)
Inductive ErrorCode :=
  | ParseError
  | InvalidRequest
  | MethodNotFound
  | InvalidParams
  | InternalError.

(** What a handler can throw: a plain [Error], the [TypeError] of a
    failed destructuring or string conversion, [new McpError(code, msg)]
    with the message as passed, and an axios error. *)
Inductive Exception :=
  | Error (msg : string)
  | TypeError
  | McpError (code : ErrorCode) (msg : string)
  | AxiosErr (e : AxiosError).

(** [axios.isAxiosError(error)] *)
Definition isAxiosError (error : Exception) : option AxiosError :=
  match error with
  | AxiosErr e => Some e
  | _ => None
  end.

Record ContentItem := {
  type : string;
  text : JSValue;
}.

(** A tool result; [isError] is [None] where the object literal has no
    such key. *)
Record ToolResult := {
  content : list ContentItem;
  isError : option bool;
}.

(** ** The outside world and the [Async] monad *)

(** What a call observes from outside the process: the calendar year of
    [new Date()], and how [axios.get] settles on a request.  It resolves
    with a response ([inr]), or it rejects ([inl]): with an axios error,
    [AxiosErr], when the transport fails or the status is not 2xx, and
    with any other error when axios gives up by itself, as on a URL it
    cannot parse, before anything is sent. *)
Record World := {
  getFullYear : Z;
  upstream : HttpRequest → Exception + AxiosResponse;
}.

Inductive Outcome (A : Type) :=
  | Returned (a : A)
  | Thrown (e : Exception).
Arguments Returned {A} a.
Arguments Thrown {A} e.

(** An asynchronous computation: run in a world, it returns or throws,
    and leaves the list of the requests it handed to [axios.get], oldest
    first. *)
Definition Async (A : Type) : Type := World → Outcome A * list HttpRequest.

Global Instance Async_ret : MRet Async := λ A a _, (Returned a, []).

Global Instance Async_bind : MBind Async := λ A B f m w,
  match m w with
  | (Returned a, t) => let '(o, t') := f a w in (o, (t ++ t')%list)
  | (Thrown e, t) => (Thrown e, t)
  end.

Definition throw {A} (e : Exception) : Async A := λ _, (Thrown e, []).

(** [try { body } catch (error) { handler }] *)
Definition try_catch {A} (body : Async A) (handler : Exception → Async A)
    : Async A := λ w,
  match body w with
  | (Returned a, t) => (Returned a, t)
  | (Thrown e, t) => let '(o, t') := handler e w in (o, (t ++ t')%list)
  end.

(** [new Date().getFullYear()] *)
Definition Date_getFullYear : Async Z := λ w, (Returned (getFullYear w), []).

(** The configuration of one [get]: the instance's defaults and the
    call's [url] and [params]. *)
Definition merge_config (instance : AxiosInstance) (url : string)
    (params : gmap string JSValue) : HttpRequest :=
  {| method := "get";
     baseURL := defaults_baseURL instance;
     headers := defaults_headers instance;
     url := url;
     params := params |}.

(** [await instance.get(url, { params })] *)
Definition axios_get (instance : AxiosInstance) (url : string)
    (params : gmap string JSValue) : Async AxiosResponse := λ w,
  let req := merge_config instance url params in
  match upstream w req with
  | inl e => (Thrown e, [req])
  | inr r => (Returned r, [req])
  end.

(** [`${v}`] inside a template literal. *)
Definition interpolate (v : JSValue) : Async string :=
  match ToString v with
  | Some s => mret s
  | None => throw TypeError
  end.

(** [const { ... } = args]: destructuring [undefined] throws. *)
Definition destructure (args : option (gmap string JSValue))
    : Async (gmap string JSValue) :=
  match args with
  | Some a => mret a
  | None => throw TypeError
  end.

(** The requests of a run. *)
Definition requests {A} (r : Outcome A * list HttpRequest)
    : list HttpRequest := r.2.

(** ** The tool registry (the [ListToolsRequestSchema] handler) *)

(** One entry of [properties]; a key the literal does not have is
    [None]. *)
Record PropertySchema := {
  p_type : string;
  p_enum : option (list string);
  p_description : string;
  p_minimum : option Z;
  p_maximum : option Z;
}.

Record InputSchema := {
  s_type : string;
  s_properties : list (string * PropertySchema);
  s_required : option (list string);
}.

Record Tool := {
  name : string;
  description : string;
  inputSchema : InputSchema;
}.

Definition string_property (descr : string) : PropertySchema :=
  {| p_type := "string"; p_enum := None; p_description := descr;
     p_minimum := None; p_maximum := None |}.

Definition enum_property (values : list string) (descr : string)
    : PropertySchema :=
  {| p_type := "string"; p_enum := Some values; p_description := descr;
     p_minimum := None; p_maximum := None |}.

Definition number_property (descr : string) (lo hi : Z) : PropertySchema :=
  {| p_type := "number"; p_enum := None; p_description := descr;
     p_minimum := Some lo; p_maximum := Some hi |}.

(** The [tools] array the listing handler returns. *)
Definition ListTools : list Tool := [
  {| name := "get_sport_news";
     description := "Get news for a specific sport";
     inputSchema := {|
       s_type := "object";
       s_properties := [
         ("sport", enum_property ["nfl"; "mlb"; "nba"; "nhl"]
                     "Sport to get news for");
         ("limit", number_property
                     "Number of news items to return (max 25)" 1 25);
         ("category", enum_property
                        ["injury"; "recap"; "transaction"; "rumor"; "breaking"]
                        "Type of news to show")];
       s_required := Some ["sport"] |} |};
  {| name := "get_players";
     description := "Get player information for a specific sport";
     inputSchema := {|
       s_type := "object";
       s_properties := [
         ("sport", enum_property ["nfl"; "mlb"; "nba"; "nhl"]
                     "Sport to get players for");
         ("playerId", string_property "Filter by specific player ID")];
       s_required := Some ["sport"] |} |};
  {| name := "get_rankings";
     description := "Get consensus rankings for a sport";
     inputSchema := {|
       s_type := "object";
       s_properties := [
         ("sport", enum_property ["nfl"; "nba"]
                     "Sport to get rankings for");
         ("position", string_property "Position to filter by");
         ("scoring", enum_property ["STD"; "PPR"; "HALF"]
                       "Scoring type (for NFL)")];
       s_required := Some ["sport"] |} |};
  {| name := "get_projections";
     description := "Get player projections for a sport";
     inputSchema := {|
       s_type := "object";
       s_properties := [
         ("sport", enum_property ["nfl"; "mlb"; "nba"]
                     "Sport to get projections for");
         ("season", string_property "Season year");
         ("week", string_property "Week number (for NFL)");
         ("position", string_property "Position to filter by")];
       s_required := Some ["sport"; "season"] |} |};
  {| name := "get_all_news";
     description := "Get all news from FantasyPros";
     inputSchema := {|
       s_type := "object";
       s_properties := [
         ("limit", number_property
                     "Number of news items to return (max 25)" 1 25);
         ("category", enum_property
                        ["injury"; "recap"; "transaction"; "rumor"; "breaking"]
                        "Type of news items to show")];
       s_required := None |} |}
].

(** Reading the registry: the entry of a tool, the fields it requires,
    and one property of its schema. *)
Definition tool_names : list string := name <$> ListTools.

Definition find_tool (n : string) : option Tool :=
  List.find (λ t, String.eqb (name t) n) ListTools.

Definition required_fields (n : string) : option (list string) :=
  t ← find_tool n; Some (default [] (s_required (inputSchema t))).

Definition property_names (n : string) : option (list string) :=
  t ← find_tool n; Some ((s_properties (inputSchema t)).*1).

Definition property (n k : string) : option PropertySchema :=
  t ← find_tool n;
  snd <$> List.find (λ p, String.eqb p.1 k) (s_properties (inputSchema t)).

Definition allowed_values (n k : string) : option (list string) :=
  p ← property n k; p_enum p.

Definition bounds (n k : string) : option (Z * Z) :=
  p ← property n k; lo ← p_minimum p; hi ← p_maximum p; Some (lo, hi).

(** ** Startup *)

Record FantasyProsServer := {
  axiosInstance : AxiosInstance;
}.

(** [process.env.FANTASYPROS_API_KEY] *)
Definition API_KEY (env : gmap string string) : JSValue :=
  from_option JStr JUndefined (env !! "FANTASYPROS_API_KEY").

(** [axios.create({ baseURL, headers: { 'x-api-key': API_KEY } })] in the
    constructor. *)
Definition new_FantasyProsServer (key : JSValue) : FantasyProsServer :=
  {| axiosInstance := {|
       defaults_baseURL := "https://api.fantasypros.com/public/v2";
       defaults_headers := {[ "x-api-key" := key ]} |} |}.

(** Loading the module: the guard on the key, then
    [new FantasyProsServer()]. *)
Definition startup (env : gmap string string) : Exception + FantasyProsServer :=
  if negb (ToBoolean (API_KEY env))
  then inl (Error "FANTASYPROS_API_KEY environment variable is required")
  else inr (new_FantasyProsServer (API_KEY env)).

(** ** The handlers (the [CallToolRequestSchema] handler) *)

Record CallToolRequest := {
  params_name : string;
  params_arguments : option (gmap string JSValue);
}.

Definition text_content (t : JSValue) : list ContentItem :=
  [{| type := "text"; text := t |}].

(** [error.response?.data?.message] *)
Definition response_data_message (error : AxiosError) : JSValue :=
  match response error with
  | None => JUndefined
  | Some r => opt_prop (data r) "message"
  end.

(** [error.response?.data?.message || error.message] *)
Definition error_message (error : AxiosError) : JSValue :=
  js_or (response_data_message error) (JStr (message error)).

Section Handlers.

(** [JSON.stringify(value, null, 2)], the runtime's. *)
Variable JSON_stringify : JSValue → JSValue.

Variable this : FantasyProsServer.

Definition success (response : AxiosResponse) : ToolResult :=
  {| content := text_content (JSON_stringify (data response));
     isError := None |}.

Definition getNews (args : option (gmap string JSValue)) : Async ToolResult :=
  a ← destructure args;
  let sport := field a "sport" in
  let limit := field_default a "limit" (JNum 25) in
  let category := field a "category" in
  let params : gmap string JSValue := {[ "limit" := limit ]} in
  let params :=
    if ToBoolean category then <[ "category" := category ]> params
    else params in
  sport_str ← interpolate sport;
  response ← axios_get (axiosInstance this)
               ("/" +:+ sport_str +:+ "/news") params;
  mret (success response).

Definition getPlayers (args : option (gmap string JSValue))
    : Async ToolResult :=
  a ← destructure args;
  let sport := field a "sport" in
  let playerId := field a "playerId" in
  let params : gmap string JSValue := ∅ in
  let params :=
    if ToBoolean playerId then <[ "player" := playerId ]> params
    else params in
  sport_str ← interpolate sport;
  response ← axios_get (axiosInstance this)
               ("/" +:+ sport_str +:+ "/players") params;
  mret (success response).

Definition getRankings (args : option (gmap string JSValue))
    : Async ToolResult :=
  a ← destructure args;
  let sport := field a "sport" in
  let position := field_default a "position" (JStr "ALL") in
  let scoring := field_default a "scoring" (JStr "STD") in
  year ← Date_getFullYear;
  let season := pretty year in
  let params : gmap string JSValue :=
    {[ "position" := position; "scoring" := scoring ]} in
  sport_str ← interpolate sport;
  response ← axios_get (axiosInstance this)
               ("/" +:+ sport_str +:+ "/" +:+ season +:+
                "/consensus-rankings") params;
  mret (success response).

Definition getProjections (args : option (gmap string JSValue))
    : Async ToolResult :=
  a ← destructure args;
  let sport := field a "sport" in
  let season := field a "season" in
  let week := field a "week" in
  let position := field a "position" in
  let params : gmap string JSValue := ∅ in
  let params :=
    if ToBoolean week then <[ "week" := week ]> params else params in
  let params :=
    if ToBoolean position then <[ "position" := position ]> params
    else params in
  sport_str ← interpolate sport;
  season_str ← interpolate season;
  response ← axios_get (axiosInstance this)
               ("/" +:+ sport_str +:+ "/" +:+ season_str +:+ "/projections")
               params;
  mret (success response).

Definition getAllNews (args : option (gmap string JSValue))
    : Async ToolResult :=
  a ← destructure args;
  let limit := field_default a "limit" (JNum 25) in
  let category := field a "category" in
  let params : gmap string JSValue := {[ "limit" := limit ]} in
  let params :=
    if ToBoolean category then <[ "category" := category ]> params
    else params in
  response ← axios_get (axiosInstance this) "/json/all/news" params;
  mret (success response).

(** The [switch] on the tool name. *)
Definition dispatch (request : CallToolRequest) : Async ToolResult :=
  let n := params_name request in
  let args := params_arguments request in
  if String.eqb n "get_sport_news" then getNews args
  else if String.eqb n "get_players" then getPlayers args
  else if String.eqb n "get_rankings" then getRankings args
  else if String.eqb n "get_projections" then getProjections args
  else if String.eqb n "get_all_news" then getAllNews args
  else throw (McpError MethodNotFound ("Unknown tool: " +:+ n)).

(** The call handler: the [switch] inside [try], and the [catch] that
    answers axios errors and rethrows the rest. *)
Definition CallTool (request : CallToolRequest) : Async ToolResult :=
  try_catch (dispatch request)
    (λ error,
       match isAxiosError error with
       | Some e =>
           m ← interpolate (error_message e);
           mret {| content :=
                     text_content (JStr ("FantasyPros API error: " +:+ m));
                   isError := Some true |}
       | None => throw error
       end).

End Handlers.

(** ** Reading a run *)

(** The run of a handler once it has built the request [req]: one
    round trip, whose answer is wrapped or whose failure is thrown. *)
Definition round_trip (JSON_stringify : JSValue → JSValue)
    (req : HttpRequest) (w : World) : Outcome ToolResult * list HttpRequest :=
  match upstream w req with
  | inl e => (Thrown e, [req])
  | inr r => (Returned (success JSON_stringify r), [req])
  end.

(** The run of the call handler once a handler has built the request
    [req]: the answer is wrapped; an axios error becomes the flagged
    result, unless its message cannot be printed; any other error that
    [axios.get] rejects with is thrown again. *)
Definition settled (JSON_stringify : JSValue → JSValue)
    (req : HttpRequest) (w : World) : Outcome ToolResult * list HttpRequest :=
  match upstream w req with
  | inl error =>
      match isAxiosError error with
      | Some e =>
          match ToString (error_message e) with
          | Some m =>
              (Returned
                 {| content :=
                      text_content (JStr ("FantasyPros API error: " +:+ m));
                    isError := Some true |}, [req])
          | None => (Thrown TypeError, [req])
          end
      | None => (Thrown error, [req])
      end
  | inr resp => (Returned (success JSON_stringify resp), [req])
  end.

(** The request the server [this] sends for [url] and [params]. *)
Definition request (this : FantasyProsServer) (url : string)
    (params : gmap string JSValue) : HttpRequest :=
  merge_config (axiosInstance this) url params.

(** The result the catch block builds around the message [m]. *)
Definition error_result (m : string) : ToolResult :=
  {| content := text_content (JStr ("FantasyPros API error: " +:+ m));
     isError := Some true |}.

(** The [params] objects the handlers fill from an argument object. *)
Definition news_params (a : gmap string JSValue) : gmap string JSValue :=
  if ToBoolean (field a "category")
  then <["category" := field a "category"]>
         {["limit" := field_default a "limit" (JNum 25)]}
  else {["limit" := field_default a "limit" (JNum 25)]}.

Definition players_params (a : gmap string JSValue) : gmap string JSValue :=
  if ToBoolean (field a "playerId")
  then {["player" := field a "playerId"]} else ∅.

Definition rankings_params (a : gmap string JSValue) : gmap string JSValue :=
  {["position" := field_default a "position" (JStr "ALL");
    "scoring" := field_default a "scoring" (JStr "STD")]}.

Definition projections_params (a : gmap string JSValue)
    : gmap string JSValue :=
  let params : gmap string JSValue :=
    if ToBoolean (field a "week") then {["week" := field a "week"]} else ∅ in
  if ToBoolean (field a "position")
  then <["position" := field a "position"]> params else params.

(** The [message] member of the upstream body, when the failure has a
    response whose body is an object with that member. *)
Definition message_field (e : AxiosError) : option JSValue :=
  r ← response e;
  match data r with
  | JObj m => m !! "message"
  | _ => None
  end.

(** ** Sample data for the closed examples *)

(** An instance of the runtime parameter; the examples look at requests
    and at error results, which do not depend on it. *)
Definition stringify_none : JSValue → JSValue := λ _, JUndefined.

Definition sample_server : FantasyProsServer :=
  new_FantasyProsServer (JStr "secret").

Definition status_500 (body : JSValue) : AxiosError :=
  {| message := "Request failed with status code 500";
     response := Some {| status := 500; data := body |} |}.

Definition network_error : AxiosError :=
  {| message := "Network Error"; response := None |}.

(** A world in year [y] whose upstream fails every request with [e]. *)
Definition failing_world (y : Z) (e : AxiosError) : World :=
  {| getFullYear := y; upstream := λ _, inl (AxiosErr e) |}.

(** A world in year [y] whose upstream answers every request with an
    empty list. *)
Definition answering_world (y : Z) : World :=
  {| getFullYear := y;
     upstream := λ _, inr {| status := 200; data := JArr [] |} |}.

(** A call with an argument object. *)
Definition call (n : string) (args : gmap string JSValue) : CallToolRequest :=
  {| params_name := n; params_arguments := Some args |}.

Definition nfl_only : gmap string JSValue := {["sport" := JStr "nfl"]}.

(** [{ sport: "mlb", playerId: "12345" }] *)
Definition mlb_player : gmap string JSValue :=
  {["sport" := JStr "mlb"; "playerId" := JStr "12345"]}.

(** [{ sport: "nba", season: "2024" }] *)
Definition nba_2024 : gmap string JSValue :=
  {["sport" := JStr "nba"; "season" := JStr "2024"]}.

(** [{ sport: "mlb", playerId: "" }] *)
Definition mlb_empty_playerId : gmap string JSValue :=
  {["sport" := JStr "mlb"; "playerId" := JStr ""]}.

(** A 500 whose body is [{ "message": "" }]. *)
Definition empty_message_error : AxiosError :=
  status_500 (JObj {["message" := JStr ""]}).

(** A 500 whose body is [{ "message": "Invalid API key" }]. *)
Definition invalid_key_error : AxiosError :=
  status_500 (JObj {["message" := JStr "Invalid API key"]}).

Definition secret_env : gmap string string :=
  {["FANTASYPROS_API_KEY" := "secret"]}.

(** A value that has no string conversion: [{ "toString": 1 }]. *)
Definition unprintable : JSValue := JObj {["toString" := JNum 1]}.

(** A 500 whose body is [{ "message": { "toString": 1 } }]. *)
Definition unprintable_message_error : AxiosError :=
  status_500 (JObj {["message" := unprintable]}).

(** [{ sport: "" }], whose path [//news] axios does not take for a path
    under the base URL. *)
Definition blank_sport : gmap string JSValue := {["sport" := JStr ""]}.

(** [{ limit: 100 }], above the bound the schema declares. *)
Definition limit_100 : gmap string JSValue := {["limit" := JNum 100]}.

(** [{ sport: "nfl", position: "", scoring: "PPR" }] *)
Definition nfl_blank_position : gmap string JSValue :=
  {["sport" := JStr "nfl"; "position" := JStr ""; "scoring" := JStr "PPR"]}.

(** [{ sport: "nfl", category: "injury" }] *)
Definition nfl_injury : gmap string JSValue :=
  {["sport" := JStr "nfl"; "category" := JStr "injury"]}.

(** [{ sport: "nfl", season: "2024", week: "3" }] *)
Definition nfl_week_3 : gmap string JSValue :=
  {["sport" := JStr "nfl"; "season" := JStr "2024"; "week" := JStr "3"]}.

(** A world in year [y] in which axios gives up on every request with
    the error [e] of its own. *)
Definition refusing_world (y : Z) (e : Exception) : World :=
  {| getFullYear := y; upstream := λ _, inl e |}.

(** A world in year [y] whose upstream answers every request with the
    body [body]. *)
Definition world_answering (y : Z) (body : JSValue) : World :=
  {| getFullYear := y;
     upstream := λ _, inr {| status := 200; data := body |} |}.

(** * Properties *)

(** Runs a handler on an argument object, by cases on the string
    conversions and on the upstream's answer. *)
Ltac run_handler h :=
  unfold h, round_trip, interpolate, mbind, Async_bind, destructure,
    axios_get, Date_getFullYear; simpl;
  repeat match goal with
         | |- context [ToString ?v] => destruct (ToString v); simpl
         end;
  try done; by destruct (upstream _ _).

(** ** Destructuring *)

Lemma field_insert_eq (a : gmap string JSValue) k v :
  field (<[k:=v]> a) k = v.
Proof. unfold field. by rewrite lookup_insert_eq. Qed.

Lemma field_insert_ne (a : gmap string JSValue) k k' v :
  k ≠ k' → field (<[k:=v]> a) k' = field a k'.
Proof. intros Hne. unfold field. by rewrite lookup_insert_ne. Qed.

Lemma field_delete_eq (a : gmap string JSValue) k :
  field (delete k a) k = JUndefined.
Proof. unfold field. by rewrite lookup_delete_eq. Qed.

Lemma field_delete_ne (a : gmap string JSValue) k k' :
  k ≠ k' → field (delete k a) k' = field a k'.
Proof. intros Hne. unfold field. by rewrite lookup_delete_ne. Qed.

Lemma field_absent (a : gmap string JSValue) k :
  a !! k = None → field a k = JUndefined.
Proof. intros H. unfold field. by rewrite H. Qed.

Lemma field_default_absent (a : gmap string JSValue) k d :
  a !! k = None → field_default a k d = d.
Proof. intros H. unfold field_default. by rewrite field_absent. Qed.

(** A property that passes the truthiness test was supplied. *)
Lemma field_truthy_present (a : gmap string JSValue) k :
  ToBoolean (field a k) = true → a !! k = Some (field a k).
Proof. unfold field. by destruct (a !! k). Qed.

(** ** The registry and the dispatcher name the same five tools *)

Lemma tool_names_eq :
  tool_names =
  ["get_sport_news"; "get_players"; "get_rankings"; "get_projections";
   "get_all_news"].
Proof. reflexivity. Qed.

Section Properties.

Variable JSON_stringify : JSValue → JSValue.
Variable this : FantasyProsServer.

(** ** Each handler is at most one round trip *)

Lemma getNews_run a w :
  getNews JSON_stringify this (Some a) w =
  match ToString (field a "sport") with
  | Some sport =>
      round_trip JSON_stringify
        (request this ("/" +:+ sport +:+ "/news") (news_params a)) w
  | None => (Thrown TypeError, [])
  end.
Proof. run_handler getNews. Qed.

Lemma getPlayers_run a w :
  getPlayers JSON_stringify this (Some a) w =
  match ToString (field a "sport") with
  | Some sport =>
      round_trip JSON_stringify
        (request this ("/" +:+ sport +:+ "/players") (players_params a)) w
  | None => (Thrown TypeError, [])
  end.
Proof. run_handler getPlayers. Qed.

Lemma getRankings_run a w :
  getRankings JSON_stringify this (Some a) w =
  match ToString (field a "sport") with
  | Some sport =>
      round_trip JSON_stringify
        (request this ("/" +:+ sport +:+ "/" +:+ pretty (getFullYear w) +:+
                  "/consensus-rankings") (rankings_params a)) w
  | None => (Thrown TypeError, [])
  end.
Proof. run_handler getRankings. Qed.

Lemma getProjections_run a w :
  getProjections JSON_stringify this (Some a) w =
  match ToString (field a "sport"), ToString (field a "season") with
  | Some sport, Some season =>
      round_trip JSON_stringify
        (request this ("/" +:+ sport +:+ "/" +:+ season +:+ "/projections")
           (projections_params a)) w
  | _, _ => (Thrown TypeError, [])
  end.
Proof. run_handler getProjections. Qed.

Lemma getAllNews_run a w :
  getAllNews JSON_stringify this (Some a) w =
  round_trip JSON_stringify (request this "/json/all/news" (news_params a)) w.
Proof. run_handler getAllNews. Qed.

(** ** The dispatcher *)

Lemma dispatch_get_sport_news args :
  dispatch JSON_stringify this
    {| params_name := "get_sport_news"; params_arguments := args |}
  = getNews JSON_stringify this args.
Proof. reflexivity. Qed.

Lemma dispatch_get_players args :
  dispatch JSON_stringify this
    {| params_name := "get_players"; params_arguments := args |}
  = getPlayers JSON_stringify this args.
Proof. reflexivity. Qed.

Lemma dispatch_get_rankings args :
  dispatch JSON_stringify this
    {| params_name := "get_rankings"; params_arguments := args |}
  = getRankings JSON_stringify this args.
Proof. reflexivity. Qed.

Lemma dispatch_get_projections args :
  dispatch JSON_stringify this
    {| params_name := "get_projections"; params_arguments := args |}
  = getProjections JSON_stringify this args.
Proof. reflexivity. Qed.

Lemma dispatch_get_all_news args :
  dispatch JSON_stringify this
    {| params_name := "get_all_news"; params_arguments := args |}
  = getAllNews JSON_stringify this args.
Proof. reflexivity. Qed.

Lemma dispatch_unknown n args :
  n ∉ tool_names →
  dispatch JSON_stringify this
    {| params_name := n; params_arguments := args |}
  = throw (McpError MethodNotFound ("Unknown tool: " +:+ n)).
Proof.
  rewrite tool_names_eq, !not_elem_of_cons.
  intros (H1 & H2 & H3 & H4 & H5 & _).
  unfold dispatch; simpl.
  by rewrite !(proj2 (String.eqb_neq _ _)).
Qed.

(** A call to a registered tool with an argument object is one round
    trip on some request, or a [TypeError] before any request. *)
Lemma dispatch_known n a w :
  n ∈ tool_names →
  (∃ url params,
     dispatch JSON_stringify this (call n a) w =
     round_trip JSON_stringify (request this url params) w) ∨
  dispatch JSON_stringify this (call n a) w = (Thrown TypeError, []).
Proof.
  rewrite tool_names_eq, !elem_of_cons, elem_of_nil.
  intros [->|[->|[->|[->|[->|[]]]]]]; unfold call.
  - rewrite dispatch_get_sport_news, getNews_run.
    destruct (ToString (field a "sport")); eauto.
  - rewrite dispatch_get_players, getPlayers_run.
    destruct (ToString (field a "sport")); eauto.
  - rewrite dispatch_get_rankings, getRankings_run.
    destruct (ToString (field a "sport")); eauto.
  - rewrite dispatch_get_projections, getProjections_run.
    destruct (ToString (field a "sport")),
             (ToString (field a "season")); eauto.
  - rewrite dispatch_get_all_news, getAllNews_run; eauto.
Qed.

(** ** The catch block *)

Lemma CallTool_round_trip r req w :
  dispatch JSON_stringify this r w = round_trip JSON_stringify req w →
  CallTool JSON_stringify this r w =
  match upstream w req with
  | inl error =>
      match isAxiosError error with
      | Some e =>
          match ToString (error_message e) with
          | Some m => (Returned (error_result m), [req])
          | None => (Thrown TypeError, [req])
          end
      | None => (Thrown error, [req])
      end
  | inr resp => (Returned (success JSON_stringify resp), [req])
  end.
Proof.
  intros H. unfold CallTool, try_catch. rewrite H. unfold round_trip.
  destruct (upstream w req) as [error|resp]; [simpl|done].
  destruct (isAxiosError error) as [e|]; [|done].
  unfold mbind, Async_bind, interpolate.
  by destruct (ToString (error_message e)).
Qed.

Lemma CallTool_thrown r e w :
  isAxiosError e = None →
  dispatch JSON_stringify this r w = (Thrown e, []) →
  CallTool JSON_stringify this r w = (Thrown e, []).
Proof.
  intros He H. unfold CallTool, try_catch. by rewrite H, He.
Qed.

Lemma CallTool_requests r req w :
  dispatch JSON_stringify this r w = round_trip JSON_stringify req w →
  requests (CallTool JSON_stringify this r w) = [req].
Proof.
  intros H. rewrite (CallTool_round_trip _ _ _ H).
  destruct (upstream w req) as [error|resp]; [|done].
  destruct (isAxiosError error) as [e|]; [|done].
  by destruct (ToString (error_message e)).
Qed.

Lemma CallTool_ext r1 r2 w :
  dispatch JSON_stringify this r1 w = dispatch JSON_stringify this r2 w →
  CallTool JSON_stringify this r1 w = CallTool JSON_stringify this r2 w.
Proof. intros H. unfold CallTool, try_catch. by rewrite H. Qed.

(** A registered tool called without an argument object fails at the
    destructuring, before any request. *)
Lemma CallTool_no_arguments n w :
  n ∈ tool_names →
  CallTool JSON_stringify this
    {| params_name := n; params_arguments := None |} w
  = (Thrown TypeError, []).
Proof.
  rewrite tool_names_eq, !elem_of_cons, elem_of_nil.
  intros [->|[->|[->|[->|[->|[]]]]]]; reflexivity.
Qed.

(** ** The requests of each tool *)

Lemma get_sport_news_requests a w :
  requests (CallTool JSON_stringify this (call "get_sport_news" a) w) =
  match ToString (field a "sport") with
  | Some sport => [request this ("/" +:+ sport +:+ "/news") (news_params a)]
  | None => []
  end.
Proof.
  destruct (ToString (field a "sport")) as [sport|] eqn:Hsport.
  - apply CallTool_requests. unfold call.
    by rewrite dispatch_get_sport_news, getNews_run, Hsport.
  - unfold call. rewrite (CallTool_thrown _ TypeError); [done..|].
    by rewrite dispatch_get_sport_news, getNews_run, Hsport.
Qed.

Lemma get_players_requests a w :
  requests (CallTool JSON_stringify this (call "get_players" a) w) =
  match ToString (field a "sport") with
  | Some sport =>
      [request this ("/" +:+ sport +:+ "/players") (players_params a)]
  | None => []
  end.
Proof.
  destruct (ToString (field a "sport")) as [sport|] eqn:Hsport.
  - apply CallTool_requests. unfold call.
    by rewrite dispatch_get_players, getPlayers_run, Hsport.
  - unfold call. rewrite (CallTool_thrown _ TypeError); [done..|].
    by rewrite dispatch_get_players, getPlayers_run, Hsport.
Qed.

Lemma get_rankings_requests a w :
  requests (CallTool JSON_stringify this (call "get_rankings" a) w) =
  match ToString (field a "sport") with
  | Some sport =>
      [request this ("/" +:+ sport +:+ "/" +:+ pretty (getFullYear w) +:+
                     "/consensus-rankings") (rankings_params a)]
  | None => []
  end.
Proof.
  destruct (ToString (field a "sport")) as [sport|] eqn:Hsport.
  - apply CallTool_requests. unfold call.
    by rewrite dispatch_get_rankings, getRankings_run, Hsport.
  - unfold call. rewrite (CallTool_thrown _ TypeError); [done..|].
    by rewrite dispatch_get_rankings, getRankings_run, Hsport.
Qed.

Lemma get_projections_requests a w :
  requests (CallTool JSON_stringify this (call "get_projections" a) w) =
  match ToString (field a "sport"), ToString (field a "season") with
  | Some sport, Some season =>
      [request this ("/" +:+ sport +:+ "/" +:+ season +:+ "/projections")
         (projections_params a)]
  | _, _ => []
  end.
Proof.
  destruct (ToString (field a "sport")) as [sport|] eqn:Hsport,
           (ToString (field a "season")) as [season|] eqn:Hseason.
  1: apply CallTool_requests; unfold call;
     by rewrite dispatch_get_projections, getProjections_run, Hsport, Hseason.
  all: unfold call; rewrite (CallTool_thrown _ TypeError); [done..|];
       by rewrite dispatch_get_projections, getProjections_run,
            Hsport, ?Hseason.
Qed.

Lemma get_all_news_requests a w :
  requests (CallTool JSON_stringify this (call "get_all_news" a) w) =
  [request this "/json/all/news" (news_params a)].
Proof.
  apply CallTool_requests. unfold call.
  by rewrite dispatch_get_all_news, getAllNews_run.
Qed.

(** The [default] branch through the catch block: the error is not an
    axios error and is thrown again. *)
Lemma CallTool_default_branch n args w :
  n ∉ tool_names →
  CallTool JSON_stringify this
    {| params_name := n; params_arguments := args |} w
  = (Thrown (McpError MethodNotFound ("Unknown tool: " +:+ n)), []).
Proof.
  intros Hn. apply CallTool_thrown; [done|]. by rewrite dispatch_unknown.
Qed.

(** ** The claims *)

(** C1. A call whose name is none of the five registered tools throws a
    method-not-found error whose message is ["Unknown tool: "] followed
    by the requested name, and issues no HTTP request. *)
Theorem CallTool_unknown_tool n args w :
  n ∉ tool_names →
  CallTool JSON_stringify this
    {| params_name := n; params_arguments := args |} w
  = (Thrown (McpError MethodNotFound ("Unknown tool: " +:+ n)), []).
Proof.
  intros Hn. apply CallTool_thrown; [done|].
  by rewrite dispatch_unknown.
Qed.

(** The optional chain of the catch block reads the [message] member
    when there is one, and [undefined] otherwise. *)
Lemma response_data_message_field e :
  response_data_message e = default JUndefined (message_field e).
Proof.
  unfold response_data_message, message_field.
  destruct (response e) as [r|]; [simpl|done].
  by destruct (data r).
Qed.

(** C2, amended. When the request of a call to a registered tool fails
    upstream, the handler returns (it does not throw) a result flagged
    [isError: true] whose one text item is non-empty:
    ["FantasyPros API error: "] followed by the [message] member of the
    upstream body when that member is there and truthy, and by the
    transport message otherwise (also when the member is there but
    falsy, such as the empty string).  The member, when there, is taken
    to have a string conversion, as every string has. *)
Theorem CallTool_upstream_failure n a w req e :
  n ∈ tool_names →
  req ∈ requests (CallTool JSON_stringify this (call n a) w) →
  upstream w req = inl (AxiosErr e) →
  (∀ v, message_field e = Some v → is_Some (ToString v)) →
  ∃ m,
    CallTool JSON_stringify this (call n a) w =
      (Returned
         {| content :=
              [{| type := "text";
                  text := JStr ("FantasyPros API error: " +:+ m) |}];
            isError := Some true |}, [req]) ∧
    "FantasyPros API error: " +:+ m ≠ "" ∧
    Some m = match message_field e with
             | Some v => if ToBoolean v then ToString v else Some (message e)
             | None => Some (message e)
             end.
Proof.
  intros Hn Hreq Hfail Hstr.
  destruct (dispatch_known n a w Hn) as [(u & p & Hrun)|Hthrow].
  - rewrite (CallTool_requests _ _ _ Hrun) in Hreq.
    apply list_elem_of_singleton in Hreq as ->.
    rewrite (CallTool_round_trip _ _ _ Hrun), Hfail. simpl.
    unfold error_message, js_or. rewrite response_data_message_field.
    destruct (message_field e) as [v|] eqn:Hv; simpl.
    + destruct (ToBoolean v); [|by eexists].
      destruct (Hstr v eq_refl) as [m ->]. by exists m.
    + by eexists.
  - rewrite (CallTool_thrown _ TypeError) in Hreq by done.
    by apply elem_of_nil in Hreq.
Qed.

(** C3, amended. The requests a call issues are determined by the call
    and the calendar year: two runs of the same call in worlds of the
    same year issue the same requests, however the upstream answers;
    and for every tool but [get_rankings] the year does not matter
    either. *)
Theorem requests_determined_by_call_and_year r w1 w2 :
  getFullYear w1 = getFullYear w2 ∨ params_name r ≠ "get_rankings" →
  requests (CallTool JSON_stringify this r w1) =
  requests (CallTool JSON_stringify this r w2).
Proof.
  destruct r as [n [a|]]; simpl; intros Hyear.
  - destruct (decide (n ∈ tool_names)) as [Hn|Hn].
    + revert Hn. rewrite tool_names_eq, !elem_of_cons, elem_of_nil.
      fold (call n a).
      intros [->|[->|[->|[->|[->|[]]]]]].
      * by rewrite !get_sport_news_requests.
      * by rewrite !get_players_requests.
      * rewrite !get_rankings_requests.
        destruct Hyear as [->|Hne]; [done|by destruct Hne].
      * by rewrite !get_projections_requests.
      * by rewrite !get_all_news_requests.
    + by rewrite !CallTool_default_branch.
  - destruct (decide (n ∈ tool_names)) as [Hn|Hn].
    + by rewrite !CallTool_no_arguments.
    + by rewrite !CallTool_default_branch.
Qed.

(** C4. A [get_sport_news] call without [limit], whose [sport] reads as
    the string [sport], issues one GET to [/{sport}/news] whose query
    has [limit] equal to the number 25; when [category] is absent too,
    the query has no [category] key (it is exactly [limit=25]). *)
Theorem get_sport_news_default_limit a w sport :
  a !! "limit" = None →
  ToString (field a "sport") = Some sport →
  ∃ req,
    requests (CallTool JSON_stringify this (call "get_sport_news" a) w)
      = [req] ∧
    method req = "get" ∧
    url req = "/" +:+ sport +:+ "/news" ∧
    params req !! "limit" = Some (JNum 25) ∧
    (a !! "category" = None →
     params req !! "category" = None ∧ params req = {["limit" := JNum 25]}).
Proof.
  intros Hlimit Hsport. eexists.
  split; [by rewrite get_sport_news_requests, Hsport|].
  simpl. unfold news_params. rewrite (field_default_absent _ _ _ Hlimit).
  split; [done|]. split; [done|]. split.
  - by destruct (ToBoolean (field a "category")).
  - intros Hcategory. by rewrite (field_absent _ _ Hcategory).
Qed.

(** C5. A [get_rankings] call without [position] and [scoring], whose
    [sport] reads as the string [sport], issues one GET to
    [/{sport}/{year}/consensus-rankings], the year being the calendar
    year of the world at the call, whose query is exactly [position=ALL]
    and [scoring=STD]. *)
Theorem get_rankings_defaults a w sport :
  a !! "position" = None →
  a !! "scoring" = None →
  ToString (field a "sport") = Some sport →
  requests (CallTool JSON_stringify this (call "get_rankings" a) w) =
  [request this ("/" +:+ sport +:+ "/" +:+ pretty (getFullYear w) +:+
            "/consensus-rankings")
     {["position" := JStr "ALL"; "scoring" := JStr "STD"]}].
Proof.
  intros Hp Hs Hsport. rewrite get_rankings_requests, Hsport.
  unfold rankings_params.
  by rewrite (field_default_absent _ _ _ Hp), (field_default_absent _ _ _ Hs).
Qed.

(** C6, amended. A [get_players] call whose [sport] reads as the
    string [sport] issues one GET to [/{sport}/players].  Its query has
    a [player] key, set to the [playerId] argument, if and only if
    [playerId] is provided and truthy; it is empty when [playerId] is
    absent, and never has another key. *)
Theorem get_players_request a w sport :
  ToString (field a "sport") = Some sport →
  ∃ req,
    requests (CallTool JSON_stringify this (call "get_players" a) w)
      = [req] ∧
    method req = "get" ∧
    url req = "/" +:+ sport +:+ "/players" ∧
    (∀ v, params req !! "player" = Some v ↔
          a !! "playerId" = Some v ∧ ToBoolean v = true) ∧
    (a !! "playerId" = None → params req = ∅) ∧
    (∀ k, k ≠ "player" → params req !! k = None).
Proof.
  intros Hsport. eexists.
  split; [by rewrite get_players_requests, Hsport|].
  simpl. unfold players_params.
  split; [done|]. split; [done|].
  destruct (ToBoolean (field a "playerId")) eqn:Htest.
  - pose proof (field_truthy_present _ _ Htest) as Hpresent.
    split; [|split].
    + intros v. rewrite lookup_singleton_eq. split.
      * intros [= <-]. done.
      * intros [Hv _]. congruence.
    + intros Habsent. congruence.
    + intros k Hk. by rewrite lookup_singleton_ne.
  - split; [|done].
    intros v. rewrite lookup_empty. split; [done|].
    intros [Hv Htrue]. unfold field in Htest. rewrite Hv in Htest.
    simpl in Htest. congruence.
Qed.

(** C7. A [get_projections] call whose [sport] and [season] read as the
    strings [sport] and [season] issues one GET to
    [/{sport}/{season}/projections].  Without [week] and [position] the
    query is empty; a [week] or [position] key is in the query only if
    that argument is provided, then with the argument as its value; the
    query never has another key. *)
Theorem get_projections_request a w sport season :
  ToString (field a "sport") = Some sport →
  ToString (field a "season") = Some season →
  ∃ req,
    requests (CallTool JSON_stringify this (call "get_projections" a) w)
      = [req] ∧
    method req = "get" ∧
    url req = "/" +:+ sport +:+ "/" +:+ season +:+ "/projections" ∧
    (a !! "week" = None → a !! "position" = None → params req = ∅) ∧
    (∀ v, params req !! "week" = Some v → a !! "week" = Some v) ∧
    (∀ v, params req !! "position" = Some v → a !! "position" = Some v) ∧
    (∀ k, k ≠ "week" → k ≠ "position" → params req !! k = None).
Proof.
  intros Hsport Hseason. eexists.
  split; [by rewrite get_projections_requests, Hsport, Hseason|].
  simpl. unfold projections_params.
  split; [done|]. split; [done|].
  destruct (ToBoolean (field a "week")) eqn:Hweek;
    destruct (ToBoolean (field a "position")) eqn:Hposition;
    try pose proof (field_truthy_present _ _ Hweek) as Hw;
    try pose proof (field_truthy_present _ _ Hposition) as Hp;
    (split; [intros Hw0 Hp0; congruence|]);
    (split; [intros v; simplify_map_eq; congruence|]);
    (split; [intros v; simplify_map_eq; congruence|]);
    intros k Hk1 Hk2; by simplify_map_eq.
Qed.

(** C10. For [category] of [get_sport_news] and of [get_all_news],
    [playerId] of [get_players], and [week] and [position] of
    [get_projections], a call that supplies the empty string runs
    exactly as the call that omits the argument (same request, same
    outcome), and the request it builds has no such query parameter:
    every request of the run lacks the key, and the run does build its
    one request whenever the path can be made. *)
Theorem empty_string_is_omitted a w :
  CallTool JSON_stringify this
    (call "get_sport_news" (<["category" := JStr ""]> a)) w =
  CallTool JSON_stringify this
    (call "get_sport_news" (delete "category" a)) w ∧
  CallTool JSON_stringify this
    (call "get_all_news" (<["category" := JStr ""]> a)) w =
  CallTool JSON_stringify this
    (call "get_all_news" (delete "category" a)) w ∧
  CallTool JSON_stringify this
    (call "get_players" (<["playerId" := JStr ""]> a)) w =
  CallTool JSON_stringify this
    (call "get_players" (delete "playerId" a)) w ∧
  CallTool JSON_stringify this
    (call "get_projections" (<["week" := JStr ""]> a)) w =
  CallTool JSON_stringify this
    (call "get_projections" (delete "week" a)) w ∧
  CallTool JSON_stringify this
    (call "get_projections" (<["position" := JStr ""]> a)) w =
  CallTool JSON_stringify this
    (call "get_projections" (delete "position" a)) w ∧
  (* the parameter is left out of every request *)
  (∀ req,
     req ∈ requests (CallTool JSON_stringify this
                       (call "get_sport_news" (<["category" := JStr ""]> a))
                       w) →
     params req !! "category" = None) ∧
  (∀ req,
     req ∈ requests (CallTool JSON_stringify this
                       (call "get_all_news" (<["category" := JStr ""]> a))
                       w) →
     params req !! "category" = None) ∧
  (∀ req,
     req ∈ requests (CallTool JSON_stringify this
                       (call "get_players" (<["playerId" := JStr ""]> a))
                       w) →
     params req !! "player" = None) ∧
  (∀ req,
     req ∈ requests (CallTool JSON_stringify this
                       (call "get_projections" (<["week" := JStr ""]> a))
                       w) →
     params req !! "week" = None) ∧
  (∀ req,
     req ∈ requests (CallTool JSON_stringify this
                       (call "get_projections"
                          (<["position" := JStr ""]> a)) w) →
     params req !! "position" = None) ∧
  (* and the request is built *)
  (∃ req,
     requests (CallTool JSON_stringify this
                 (call "get_all_news" (<["category" := JStr ""]> a)) w)
     = [req] ∧ url req = "/json/all/news") ∧
  (∀ sport, ToString (field a "sport") = Some sport →
     (∃ req,
        requests (CallTool JSON_stringify this
                    (call "get_sport_news" (<["category" := JStr ""]> a))
                    w)
        = [req] ∧ url req = "/" +:+ sport +:+ "/news") ∧
     (∃ req,
        requests (CallTool JSON_stringify this
                    (call "get_players" (<["playerId" := JStr ""]> a)) w)
        = [req] ∧ url req = "/" +:+ sport +:+ "/players") ∧
     ∀ season, ToString (field a "season") = Some season →
       (∃ req,
          requests (CallTool JSON_stringify this
                      (call "get_projections" (<["week" := JStr ""]> a))
                      w)
          = [req] ∧
          url req = "/" +:+ sport +:+ "/" +:+ season +:+ "/projections") ∧
       (∃ req,
          requests (CallTool JSON_stringify this
                      (call "get_projections"
                         (<["position" := JStr ""]> a)) w)
          = [req] ∧
          url req = "/" +:+ sport +:+ "/" +:+ season +:+ "/projections")).
Proof.
  repeat match goal with |- _ = _ ∧ _ => split end.
  1-5: apply CallTool_ext; unfold call.
  - rewrite !dispatch_get_sport_news, !getNews_run.
    unfold news_params, field_default.
    rewrite field_insert_eq, field_delete_eq.
    by rewrite !field_insert_ne, !field_delete_ne.
  - rewrite !dispatch_get_all_news, !getAllNews_run.
    unfold news_params, field_default.
    rewrite field_insert_eq, field_delete_eq.
    by rewrite !field_insert_ne, !field_delete_ne.
  - rewrite !dispatch_get_players, !getPlayers_run. unfold players_params.
    rewrite field_insert_eq, field_delete_eq.
    by rewrite !field_insert_ne, !field_delete_ne.
  - rewrite !dispatch_get_projections, !getProjections_run.
    unfold projections_params.
    rewrite field_insert_eq, field_delete_eq.
    by rewrite !field_insert_ne, !field_delete_ne.
  - rewrite !dispatch_get_projections, !getProjections_run.
    unfold projections_params.
    rewrite field_insert_eq, field_delete_eq.
    by rewrite !field_insert_ne, !field_delete_ne.
  - rewrite get_sport_news_requests, get_all_news_requests,
      get_players_requests, !get_projections_requests.
    unfold news_params, players_params, projections_params.
    rewrite !field_insert_eq, !field_insert_ne by done. simpl.
    split; [|split; [|split; [|split; [|split; [|split]]]]].
    + intros req.
      destruct (ToString (field a "sport")); [|by intros ?%elem_of_nil].
      intros ->%list_elem_of_singleton. simpl.
      by rewrite lookup_singleton_ne.
    + intros req ->%list_elem_of_singleton. simpl.
      by rewrite lookup_singleton_ne.
    + intros req.
      destruct (ToString (field a "sport")); [|by intros ?%elem_of_nil].
      by intros ->%list_elem_of_singleton.
    + intros req.
      destruct (ToString (field a "sport")),
               (ToString (field a "season"));
        try by intros ?%elem_of_nil.
      intros ->%list_elem_of_singleton. simpl.
      destruct (ToBoolean (field a "position")); [|done].
      by rewrite lookup_insert_ne.
    + intros req.
      destruct (ToString (field a "sport")),
               (ToString (field a "season"));
        try by intros ?%elem_of_nil.
      intros ->%list_elem_of_singleton. simpl.
      destruct (ToBoolean (field a "week")); [|done].
      by rewrite lookup_singleton_ne.
    + by eexists.
    + intros sport ->. split; [by eexists|]. split; [by eexists|].
      intros season ->. split; by eexists.
Qed.

End Properties.

(** C9. Without the API-key variable in the environment, startup throws
    and there is no server.  With the variable set to a non-empty key,
    startup yields the server; and whenever startup yields a server from
    an environment that has the key, the server's one axios instance has
    the base URL and the key as its [x-api-key] header, and every
    request of every call goes out with both. *)
Theorem startup_api_key (JSON_stringify : JSValue → JSValue)
    (env : gmap string string) :
  (env !! "FANTASYPROS_API_KEY" = None →
   startup env =
   inl (Error "FANTASYPROS_API_KEY environment variable is required")) ∧
  (∀ key, env !! "FANTASYPROS_API_KEY" = Some key →
     (key ≠ "" → ∃ server, startup env = inr server) ∧
     ∀ server, startup env = inr server →
       axiosInstance server =
         {| defaults_baseURL := "https://api.fantasypros.com/public/v2";
            defaults_headers := {["x-api-key" := JStr key]} |} ∧
       ∀ r w req,
         req ∈ requests (CallTool JSON_stringify server r w) →
         baseURL req = "https://api.fantasypros.com/public/v2" ∧
         headers req = {["x-api-key" := JStr key]}).
Proof.
  unfold startup, API_KEY. split.
  - by intros ->.
  - intros key ->. simpl. split.
    + intros Hkey. apply String.eqb_neq in Hkey. rewrite Hkey. simpl. eauto.
    + intros server Hstart.
      destruct (key =? "") eqn:Hkey; simpl in Hstart; [done|].
      injection Hstart as <-. split; [done|].
      intros [n [a|]] w req; destruct (decide (n ∈ tool_names)) as [Hn|Hn].
      * fold (call n a).
        destruct (dispatch_known JSON_stringify
                    (new_FantasyProsServer (JStr key)) n a w Hn)
          as [(u & p & Hrun)|Hthrow].
        -- rewrite (CallTool_requests _ _ _ _ _ Hrun).
           by intros ->%list_elem_of_singleton.
        -- rewrite (CallTool_thrown _ _ _ TypeError) by done.
           by intros ?%elem_of_nil.
      * rewrite CallTool_default_branch by done. by intros ?%elem_of_nil.
      * rewrite CallTool_no_arguments by done. by intros ?%elem_of_nil.
      * rewrite CallTool_default_branch by done. by intros ?%elem_of_nil.
Qed.

(** C8. The listing has exactly the five tools, under distinct names,
    with the required fields, allowed values and bounds of the table:
    [get_sport_news] and [get_players] require [sport] among nfl, mlb,
    nba, nhl; [get_rankings] requires [sport] among nfl, nba;
    [get_projections] requires [sport] (nfl, mlb, nba) and [season];
    [get_all_news] requires nothing; [limit] is a number within 1..25
    and [category] one of the five news kinds wherever they occur;
    [scoring] is one of STD, PPR, HALF. *)
Theorem ListTools_registry :
  name <$> ListTools =
    ["get_sport_news"; "get_players"; "get_rankings"; "get_projections";
     "get_all_news"] ∧
  NoDup tool_names ∧
  (∀ t, t ∈ ListTools →
        description t ≠ "" ∧ s_type (inputSchema t) = "object") ∧
  (* get_sport_news *)
  property_names "get_sport_news" = Some ["sport"; "limit"; "category"] ∧
  required_fields "get_sport_news" = Some ["sport"] ∧
  allowed_values "get_sport_news" "sport" =
    Some ["nfl"; "mlb"; "nba"; "nhl"] ∧
  allowed_values "get_sport_news" "category" =
    Some ["injury"; "recap"; "transaction"; "rumor"; "breaking"] ∧
  p_type <$> property "get_sport_news" "limit" = Some "number" ∧
  bounds "get_sport_news" "limit" = Some (1, 25)%Z ∧
  (* get_players *)
  property_names "get_players" = Some ["sport"; "playerId"] ∧
  required_fields "get_players" = Some ["sport"] ∧
  allowed_values "get_players" "sport" = Some ["nfl"; "mlb"; "nba"; "nhl"] ∧
  allowed_values "get_players" "playerId" = None ∧
  (* get_rankings *)
  property_names "get_rankings" = Some ["sport"; "position"; "scoring"] ∧
  required_fields "get_rankings" = Some ["sport"] ∧
  allowed_values "get_rankings" "sport" = Some ["nfl"; "nba"] ∧
  allowed_values "get_rankings" "position" = None ∧
  allowed_values "get_rankings" "scoring" = Some ["STD"; "PPR"; "HALF"] ∧
  (* get_projections *)
  property_names "get_projections" =
    Some ["sport"; "season"; "week"; "position"] ∧
  required_fields "get_projections" = Some ["sport"; "season"] ∧
  allowed_values "get_projections" "sport" = Some ["nfl"; "mlb"; "nba"] ∧
  (* get_all_news *)
  property_names "get_all_news" = Some ["limit"; "category"] ∧
  required_fields "get_all_news" = Some [] ∧
  (s_required ∘ inputSchema) <$> find_tool "get_all_news" = Some None ∧
  allowed_values "get_all_news" "category" =
    Some ["injury"; "recap"; "transaction"; "rumor"; "breaking"] ∧
  p_type <$> property "get_all_news" "limit" = Some "number" ∧
  bounds "get_all_news" "limit" = Some (1, 25)%Z.
Proof.
  split; [reflexivity|].
  split; [rewrite tool_names_eq; apply (bool_decide_unpack _); by vm_compute|].
  split; [|repeat split].
  intros t Ht.
  repeat (apply elem_of_cons in Ht as [->|Ht]; [by split|]).
  by apply elem_of_nil in Ht.
Qed.

(** ** Runs on concrete calls *)

(** [get_players] with [{ sport: "mlb", playerId: "12345" }] asks for
    [/mlb/players?player=12345]. *)
Example get_players_with_playerId :
  requests (CallTool stringify_none sample_server
              (call "get_players" mlb_player) (answering_world 2026)) =
  [request sample_server "/mlb/players"
     {["player" := JStr "12345"]}].
Proof. reflexivity. Qed.

(** [get_projections] with [{ sport: "nba", season: "2024" }] asks for
    [/nba/2024/projections] with an empty query. *)
Example get_projections_nba_2024 :
  requests (CallTool stringify_none sample_server
              (call "get_projections" nba_2024) (answering_world 2026)) =
  [request sample_server "/nba/2024/projections" ∅].
Proof. reflexivity. Qed.

(** A transport failure has no response, and the result carries the
    transport message. *)
Example get_all_news_network_error :
  CallTool stringify_none sample_server (call "get_all_news" ∅)
    (failing_world 2026 network_error) =
  (Returned (error_result "Network Error"),
   [request sample_server "/json/all/news"
      {["limit" := JNum 25]}]).
Proof. reflexivity. Qed.

(** A registered tool called without an argument object throws at the
    destructuring; the catch block lets the [TypeError] through. *)
Example get_all_news_without_arguments :
  CallTool stringify_none sample_server
    {| params_name := "get_all_news"; params_arguments := None |}
    (answering_world 2026) = (Thrown TypeError, []).
Proof. reflexivity. Qed.

(** A [sport] that has no string conversion stops the call before any
    request. *)
Example get_sport_news_unprintable_sport :
  CallTool stringify_none sample_server
    (call "get_sport_news" {["sport" := JObj {["toString" := JNum 1]}]})
    (answering_world 2026) = (Thrown TypeError, []).
Proof. reflexivity. Qed.

(** With [{ sport: "" }] the handler asks axios for [//news]; when
    axios rejects that with an error of its own, the catch block throws
    it again. *)
Example get_sport_news_blank_sport :
  CallTool stringify_none sample_server (call "get_sport_news" blank_sport)
    (refusing_world 2026 TypeError) =
  (Thrown TypeError,
   [request sample_server "//news" {["limit" := JNum 25]}]).
Proof. reflexivity. Qed.

(** Numbers in a path: a count prints as it is, 2^60 prints the
    shortest decimal of its double, and from 10^21 on the exponent
    appears. *)
Example ToString_numbers :
  ToString (JNum 2024) = Some "2024" ∧
  ToString (JNum (-5)) = Some "-5" ∧
  ToString (JNum (2 ^ 60)) = Some "1152921504606847000" ∧
  ToString (JNum (10 ^ 21)) = Some "1e+21" ∧
  ToString (JNum (2 ^ 70)) = Some "1.1805916207174113e+21" ∧
  ToString (JNum (2 ^ 1024)) = Some "Infinity".
Proof. repeat split; by vm_compute. Qed.

(** An empty key is as good as none. *)
Example startup_empty_key :
  startup {["FANTASYPROS_API_KEY" := ""]} =
  inl (Error "FANTASYPROS_API_KEY environment variable is required").
Proof. reflexivity. Qed.

(** ** Closed instances *)

(** C1 at the name [get_weather]. *)
Lemma CallTool_unknown_tool_witness :
  ("get_weather" ∉ tool_names) ∧
  CallTool stringify_none sample_server
    {| params_name := "get_weather"; params_arguments := Some nfl_only |}
    (answering_world 2026)
  = (Thrown (McpError MethodNotFound "Unknown tool: get_weather"), []).
Proof.
  assert (Hn : "get_weather" ∉ tool_names)
    by (apply (bool_decide_unpack _); vm_compute; exact I).
  split; [exact Hn|].
  exact (CallTool_unknown_tool stringify_none sample_server
           "get_weather" (Some nfl_only) (answering_world 2026) Hn).
Defined.

(** C2 (amended) at a 500 whose body carries a message. *)
Lemma CallTool_upstream_failure_witness :
  "get_sport_news" ∈ tool_names ∧
  request sample_server "/nfl/news" {["limit" := JNum 25]}
  ∈ requests (CallTool stringify_none sample_server
                (call "get_sport_news" nfl_only)
                (failing_world 2026 invalid_key_error)) ∧
  upstream (failing_world 2026 invalid_key_error)
    (request sample_server "/nfl/news" {["limit" := JNum 25]})
  = inl (AxiosErr invalid_key_error) ∧
  (∀ v, message_field invalid_key_error = Some v → is_Some (ToString v)) ∧
  ∃ m,
    CallTool stringify_none sample_server (call "get_sport_news" nfl_only)
      (failing_world 2026 invalid_key_error) =
      (Returned
         {| content :=
              [{| type := "text";
                  text := JStr ("FantasyPros API error: " +:+ m) |}];
            isError := Some true |},
       [request sample_server "/nfl/news" {["limit" := JNum 25]}]) ∧
    "FantasyPros API error: " +:+ m ≠ "" ∧
    Some m = Some "Invalid API key".
Proof.
  assert (Hn : "get_sport_news" ∈ tool_names)
    by (apply (bool_decide_unpack _); vm_compute; exact I).
  assert (Hreq :
    request sample_server "/nfl/news" {["limit" := JNum 25]}
    ∈ requests (CallTool stringify_none sample_server
                  (call "get_sport_news" nfl_only)
                  (failing_world 2026 invalid_key_error)))
    by (vm_compute; apply list_elem_of_here).
  assert (Hstr : ∀ v, message_field invalid_key_error = Some v →
                      is_Some (ToString v))
    by (intros v [= <-]; by eexists).
  split; [exact Hn|]. split; [exact Hreq|]. split; [reflexivity|].
  split; [exact Hstr|].
  exact (CallTool_upstream_failure stringify_none sample_server
           "get_sport_news" nfl_only (failing_world 2026 invalid_key_error)
           _ invalid_key_error Hn Hreq eq_refl Hstr).
Defined.

(** C2 as stated fails at a 500 whose body is [{ "message": "" }]: the
    member is present, and the text carries the transport message, not
    the member. *)
Lemma upstream_empty_message_counterexample :
  message_field empty_message_error = Some (JStr "") ∧
  message empty_message_error = "Request failed with status code 500" ∧
  CallTool stringify_none sample_server (call "get_sport_news" nfl_only)
    (failing_world 2026 empty_message_error) =
    (Returned
       {| content :=
            [{| type := "text";
                text := JStr ("FantasyPros API error: " +:+
                              "Request failed with status code 500") |}];
          isError := Some true |},
     [request sample_server "/nfl/news" {["limit" := JNum 25]}]) ∧
  ToString (JStr "") = Some "" ∧
  "FantasyPros API error: " +:+ "Request failed with status code 500" ≠
  "FantasyPros API error: " +:+ "".
Proof. repeat (split; [reflexivity|]). discriminate. Qed.

(** C3 (amended) at two worlds of the year 2026, one answering and one
    failing. *)
Lemma requests_determined_witness :
  (getFullYear (answering_world 2026)
   = getFullYear (failing_world 2026 network_error) ∨
   params_name (call "get_rankings" nfl_only) ≠ "get_rankings") ∧
  requests (CallTool stringify_none sample_server
              (call "get_rankings" nfl_only) (answering_world 2026)) =
  requests (CallTool stringify_none sample_server
              (call "get_rankings" nfl_only)
              (failing_world 2026 network_error)).
Proof.
  split; [left; reflexivity|].
  exact (requests_determined_by_call_and_year stringify_none sample_server
           (call "get_rankings" nfl_only) (answering_world 2026)
           (failing_world 2026 network_error) (or_introl eq_refl)).
Defined.

(** C3 as stated fails for [get_rankings]: the same call builds
    different requests in 2025 and in 2026. *)
Lemma get_rankings_year_counterexample :
  url <$> requests (CallTool stringify_none sample_server
                      (call "get_rankings" nfl_only) (answering_world 2025))
    = ["/nfl/2025/consensus-rankings"] ∧
  url <$> requests (CallTool stringify_none sample_server
                      (call "get_rankings" nfl_only) (answering_world 2026))
    = ["/nfl/2026/consensus-rankings"] ∧
  requests (CallTool stringify_none sample_server
              (call "get_rankings" nfl_only) (answering_world 2025)) ≠
  requests (CallTool stringify_none sample_server
              (call "get_rankings" nfl_only) (answering_world 2026)).
Proof.
  split; [reflexivity|]. split; [reflexivity|].
  intros H. apply (f_equal (fmap url)) in H. discriminate H.
Qed.

(** C4 at [{ sport: "nfl" }]. *)
Lemma get_sport_news_default_limit_witness :
  nfl_only !! "limit" = None ∧
  ToString (field nfl_only "sport") = Some "nfl" ∧
  ∃ req,
    requests (CallTool stringify_none sample_server
                (call "get_sport_news" nfl_only) (answering_world 2026))
      = [req] ∧
    method req = "get" ∧
    url req = "/nfl/news" ∧
    params req !! "limit" = Some (JNum 25) ∧
    (nfl_only !! "category" = None →
     params req !! "category" = None ∧ params req = {["limit" := JNum 25]}).
Proof.
  split; [reflexivity|]. split; [reflexivity|].
  exact (get_sport_news_default_limit stringify_none sample_server nfl_only
           (answering_world 2026) "nfl" eq_refl eq_refl).
Defined.

(** C5 at [{ sport: "nfl" }] in 2026. *)
Lemma get_rankings_defaults_witness :
  nfl_only !! "position" = None ∧
  nfl_only !! "scoring" = None ∧
  ToString (field nfl_only "sport") = Some "nfl" ∧
  requests (CallTool stringify_none sample_server
              (call "get_rankings" nfl_only) (answering_world 2026)) =
  [request sample_server "/nfl/2026/consensus-rankings"
     {["position" := JStr "ALL"; "scoring" := JStr "STD"]}].
Proof.
  split; [reflexivity|]. split; [reflexivity|]. split; [reflexivity|].
  exact (get_rankings_defaults stringify_none sample_server nfl_only
           (answering_world 2026) "nfl" eq_refl eq_refl eq_refl).
Defined.

(** C6 (amended) at [{ sport: "mlb", playerId: "12345" }]. *)
Lemma get_players_request_witness :
  ToString (field mlb_player "sport") = Some "mlb" ∧
  ∃ req,
    requests (CallTool stringify_none sample_server
                (call "get_players" mlb_player) (answering_world 2026))
      = [req] ∧
    method req = "get" ∧
    url req = "/mlb/players" ∧
    (∀ v, params req !! "player" = Some v ↔
          mlb_player !! "playerId" = Some v ∧ ToBoolean v = true) ∧
    (mlb_player !! "playerId" = None → params req = ∅) ∧
    (∀ k, k ≠ "player" → params req !! k = None).
Proof.
  split; [reflexivity|].
  exact (get_players_request stringify_none sample_server mlb_player
           (answering_world 2026) "mlb" eq_refl).
Defined.

(** C6 as stated fails at [{ sport: "mlb", playerId: "" }]: [playerId]
    is provided, and the query has no [player] key. *)
Lemma get_players_empty_playerId_counterexample :
  mlb_empty_playerId !! "playerId" = Some (JStr "") ∧
  requests (CallTool stringify_none sample_server
              (call "get_players" mlb_empty_playerId) (answering_world 2026))
    = [request sample_server "/mlb/players" ∅] ∧
  ¬ (is_Some
       (params (request sample_server "/mlb/players" ∅)
          !! "player")
     ↔ is_Some (mlb_empty_playerId !! "playerId")).
Proof.
  split; [reflexivity|]. split; [reflexivity|].
  intros [_ H]. destruct H as [v Hv]; [by eexists|]. discriminate Hv.
Qed.

(** C7 at [{ sport: "nba", season: "2024" }]. *)
Lemma get_projections_request_witness :
  ToString (field nba_2024 "sport") = Some "nba" ∧
  ToString (field nba_2024 "season") = Some "2024" ∧
  ∃ req,
    requests (CallTool stringify_none sample_server
                (call "get_projections" nba_2024) (answering_world 2026))
      = [req] ∧
    method req = "get" ∧
    url req = "/nba/2024/projections" ∧
    (nba_2024 !! "week" = None → nba_2024 !! "position" = None →
     params req = ∅) ∧
    (∀ v, params req !! "week" = Some v → nba_2024 !! "week" = Some v) ∧
    (∀ v, params req !! "position" = Some v →
          nba_2024 !! "position" = Some v) ∧
    (∀ k, k ≠ "week" → k ≠ "position" → params req !! k = None).
Proof.
  split; [reflexivity|]. split; [reflexivity|].
  exact (get_projections_request stringify_none sample_server nba_2024
           (answering_world 2026) "nba" "2024" eq_refl eq_refl).
Defined.

(** C10 at [{ sport: "nfl", category: "" }]. *)
Lemma empty_string_is_omitted_witness :
  ToString (field nfl_only "sport") = Some "nfl" ∧
  (∀ req,
     req ∈ requests (CallTool stringify_none sample_server
                       (call "get_sport_news"
                          (<["category" := JStr ""]> nfl_only))
                       (answering_world 2026)) →
     params req !! "category" = None) ∧
  ∃ req,
    requests (CallTool stringify_none sample_server
                (call "get_sport_news" (<["category" := JStr ""]> nfl_only))
                (answering_world 2026))
    = [req] ∧ url req = "/nfl/news".
Proof.
  split; [reflexivity|].
  destruct (empty_string_is_omitted stringify_none sample_server nfl_only
              (answering_world 2026))
    as (_ & _ & _ & _ & _ & Hnone & _ & _ & _ & _ & _ & Hbuilt).
  split; [exact Hnone|].
  exact (proj1 (Hbuilt "nfl" eq_refl)).
Defined.

(** C9 at an environment whose key is ["secret"]. *)
Lemma startup_api_key_witness :
  secret_env !! "FANTASYPROS_API_KEY" = Some "secret" ∧
  startup secret_env = inr sample_server ∧
  ∀ r w req,
    req ∈ requests (CallTool stringify_none sample_server r w) →
    baseURL req = "https://api.fantasypros.com/public/v2" ∧
    headers req = {["x-api-key" := JStr "secret"]}.
Proof.
  split; [reflexivity|]. split; [reflexivity|].
  exact (proj2 (proj2 (proj2 (startup_api_key stringify_none secret_env)
                         "secret" eq_refl) sample_server eq_refl)).
Defined.

(** * Further properties of the call handler *)

Section CallHandler.

Variable JSON_stringify : JSValue → JSValue.
Variable this : FantasyProsServer.

(** Every run of the call handler has one of three shapes: one round
    trip, settled as axios settles it; a [TypeError] of a registered
    tool before any request; the rejection of an unknown name. *)
Lemma CallTool_cases r w :
  (∃ url params,
     CallTool JSON_stringify this r w =
     settled JSON_stringify (request this url params) w) ∨
  (params_name r ∈ tool_names ∧
   CallTool JSON_stringify this r w = (Thrown TypeError, [])) ∨
  ((params_name r ∉ tool_names) ∧
   CallTool JSON_stringify this r w =
   (Thrown (McpError MethodNotFound ("Unknown tool: " +:+ params_name r)),
    [])).
Proof.
  destruct r as [n [a|]]; simpl;
    destruct (decide (n ∈ tool_names)) as [Hn|Hn].
  - fold (call n a).
    destruct (dispatch_known JSON_stringify this n a w Hn)
      as [(u & p & Hrun)|Hthrow].
    + left. exists u, p. by apply CallTool_round_trip.
    + right; left. split; [done|]. by apply CallTool_thrown.
  - right; right. split; [done|]. by apply CallTool_default_branch.
  - right; left. split; [done|]. by apply CallTool_no_arguments.
  - right; right. split; [done|]. by apply CallTool_default_branch.
Qed.

Lemma CallTool_settled r req w :
  dispatch JSON_stringify this r w = round_trip JSON_stringify req w →
  CallTool JSON_stringify this r w = settled JSON_stringify req w.
Proof. apply CallTool_round_trip. Qed.

(** In the first shape the one request is the only one, however it is
    settled. *)
Lemma settled_requests req w :
  requests (settled JSON_stringify req w) = [req].
Proof.
  unfold settled. destruct (upstream w req) as [error|resp]; [|done].
  destruct (isAxiosError error) as [e|]; [|done].
  by destruct (ToString (error_message e)).
Qed.

(** X1. When the request of a call is answered, the handler returns one
    text item holding [JSON.stringify] of the response body, with no
    [isError] key; the status of the response plays no part. *)
Theorem upstream_answer_is_passed_through r w req resp :
  req ∈ requests (CallTool JSON_stringify this r w) →
  upstream w req = inr resp →
  CallTool JSON_stringify this r w =
  (Returned {| content := [{| type := "text";
                              text := JSON_stringify (data resp) |}];
               isError := None |}, [req]).
Proof.
  intros Hreq Hup.
  destruct (CallTool_cases r w) as [(u & p & H)|[[_ H]|[_ H]]];
    rewrite H in Hreq |- *.
  - rewrite settled_requests in Hreq.
    apply list_elem_of_singleton in Hreq as ->. unfold settled.
    by rewrite Hup.
  - by apply elem_of_nil in Hreq.
  - by apply elem_of_nil in Hreq.
Qed.

(** X2. A call never issues more than one request, and a request it
    issues is a GET: there is no retry and no second round trip, for any
    name, any arguments and any upstream behaviour. *)
Theorem at_most_one_get r w :
  (List.length (requests (CallTool JSON_stringify this r w)) ≤ 1)%nat ∧
  ∀ req, req ∈ requests (CallTool JSON_stringify this r w) →
         method req = "get".
Proof.
  destruct (CallTool_cases r w) as [(u & p & H)|[[_ H]|[_ H]]]; rewrite H.
  - rewrite settled_requests. split; [done|].
    by intros req ->%list_elem_of_singleton.
  - split; [simpl; lia|]. by intros req ?%elem_of_nil.
  - split; [simpl; lia|]. by intros req ?%elem_of_nil.
Qed.

(** X3. What the call handler throws is never an axios error.  It is
    an error of another kind that [axios.get] itself rejected the one
    request with, thrown again as it is; or a [TypeError], and then the
    tool is a registered one; or the method-not-found error, and then
    the name is not registered and no request was made. *)
Theorem thrown_errors r w e :
  (CallTool JSON_stringify this r w).1 = Thrown e →
  isAxiosError e = None ∧
  ((∃ req, requests (CallTool JSON_stringify this r w) = [req] ∧
           upstream w req = inl e) ∨
   e = TypeError ∧ params_name r ∈ tool_names ∨
   e = McpError MethodNotFound ("Unknown tool: " +:+ params_name r) ∧
   (params_name r ∉ tool_names) ∧
   requests (CallTool JSON_stringify this r w) = []).
Proof.
  destruct (CallTool_cases r w) as [(u & p & H)|[[Hn H]|[Hn H]]].
  - assert (params_name r ∈ tool_names) as Hn.
    { destruct (decide (params_name r ∈ tool_names)) as [|Hn]; [done|].
      destruct r as [n args]; simpl in Hn.
      rewrite CallTool_default_branch in H by done.
      pose proof (settled_requests (request this u p) w) as Hreq.
      by rewrite <- H in Hreq. }
    rewrite H, settled_requests. unfold settled.
    destruct (upstream w (request this u p)) as [error|resp] eqn:Hup;
      [|done].
    destruct (isAxiosError error) as [err|] eqn:Herr.
    + destruct (ToString (error_message err)); [done|].
      intros [= <-]. split; [done|]. right; left. done.
    + intros [= <-]. split; [done|]. left. by eexists.
  - rewrite H. intros [= <-]. split; [done|]. right; left. done.
  - rewrite H. intros [= <-]. split; [done|]. right; right. done.
Qed.

(** X4. A result the call handler returns comes from exactly one
    request.  It is flagged [isError: true] exactly when that request
    was rejected, then with an axios error, and it is the error text;
    otherwise it is the stringified body, with no flag. *)
Theorem returned_results r w res :
  (CallTool JSON_stringify this r w).1 = Returned res →
  ∃ req,
    requests (CallTool JSON_stringify this r w) = [req] ∧
    match upstream w req with
    | inl error =>
        isError res = Some true ∧
        ∃ err m,
          error = AxiosErr err ∧
          ToString (error_message err) = Some m ∧
          content res =
            [{| type := "text";
                text := JStr ("FantasyPros API error: " +:+ m) |}]
    | inr resp =>
        isError res = None ∧
        content res =
          [{| type := "text"; text := JSON_stringify (data resp) |}]
    end.
Proof.
  destruct (CallTool_cases r w) as [(u & p & H)|[[_ H]|[_ H]]];
    rewrite H; [|done..].
  rewrite settled_requests. intros Hres. exists (request this u p).
  split; [done|]. unfold settled in Hres.
  destruct (upstream w (request this u p)) as [error|resp].
  - destruct error as [| | |err]; try done. simpl in Hres.
    destruct (ToString (error_message err)) as [m|] eqn:Hm; [|done].
    injection Hres as <-. split; [done|]. by exists err, m.
  - by injection Hres as <-.
Qed.

(** X5. A call without an argument object never reaches the upstream:
    a registered tool throws the [TypeError] of the destructuring (also
    [get_all_news], which requires no field), and an unknown name is
    rejected as usual. *)
Theorem call_without_arguments r w :
  params_arguments r = None →
  CallTool JSON_stringify this r w =
  (Thrown (if decide (params_name r ∈ tool_names) then TypeError
           else McpError MethodNotFound
                  ("Unknown tool: " +:+ params_name r)), []).
Proof.
  destruct r as [n args]; simpl; intros ->.
  destruct (decide (n ∈ tool_names)) as [Hn|Hn].
  - by apply CallTool_no_arguments.
  - by apply CallTool_default_branch.
Qed.

(** X6. When the upstream fails a request with a body whose [message]
    member is truthy and has no string conversion, the catch block
    itself throws: the call ends in a [TypeError], after the request,
    and no error result is returned. *)
Theorem unprintable_upstream_message r w req e v :
  req ∈ requests (CallTool JSON_stringify this r w) →
  upstream w req = inl (AxiosErr e) →
  message_field e = Some v →
  ToBoolean v = true →
  ToString v = None →
  CallTool JSON_stringify this r w = (Thrown TypeError, [req]).
Proof.
  intros Hreq Hup Hv Htrue Hnone.
  assert (ToString (error_message e) = None) as Hmsg.
  { unfold error_message, js_or. rewrite response_data_message_field, Hv.
    simpl. by rewrite Htrue. }
  destruct (CallTool_cases r w) as [(u & p & H)|[[_ H]|[_ H]]];
    rewrite H in Hreq |- *.
  - rewrite settled_requests in Hreq.
    apply list_elem_of_singleton in Hreq as ->. unfold settled.
    rewrite Hup. simpl. by rewrite Hmsg.
  - by apply elem_of_nil in Hreq.
  - by apply elem_of_nil in Hreq.
Qed.

(** X7. A [sport] argument that has no string conversion stops each of
    the four tools that put it in the path: they throw a [TypeError]
    before any request. *)
Theorem unprintable_sport n a w :
  n ∈ tool_names →
  n ≠ "get_all_news" →
  ToString (field a "sport") = None →
  CallTool JSON_stringify this (call n a) w = (Thrown TypeError, []).
Proof.
  rewrite tool_names_eq, !elem_of_cons, elem_of_nil.
  intros [->|[->|[->|[->|[->|[]]]]]] Hne Hsport; [..|done];
    apply CallTool_thrown; [done| |done| |done| |done|]; unfold call.
  - by rewrite dispatch_get_sport_news, getNews_run, Hsport.
  - by rewrite dispatch_get_players, getPlayers_run, Hsport.
  - by rewrite dispatch_get_rankings, getRankings_run, Hsport.
  - by rewrite dispatch_get_projections, getProjections_run, Hsport.
Qed.

End CallHandler.

(** * Further properties of the requests *)

(** A supplied property other than [undefined] overrides the default,
    whatever it is. *)
Lemma field_default_present (a : gmap string JSValue) k v d :
  a !! k = Some v → v ≠ JUndefined → field_default a k d = v.
Proof.
  intros Hk Hv. unfold field_default, field. rewrite Hk. simpl.
  by destruct v.
Qed.

Lemma field_present (a : gmap string JSValue) k v :
  a !! k = Some v → field a k = v.
Proof. intros Hk. unfold field. by rewrite Hk. Qed.

(** The query of the two news tools. *)
Lemma news_params_spec (a : gmap string JSValue) :
  (a !! "limit" = None → news_params a !! "limit" = Some (JNum 25)) ∧
  (∀ v, a !! "limit" = Some v → v ≠ JUndefined →
        news_params a !! "limit" = Some v) ∧
  (∀ v, news_params a !! "category" = Some v ↔
        a !! "category" = Some v ∧ ToBoolean v = true) ∧
  (∀ k, k ≠ "limit" → k ≠ "category" → news_params a !! k = None).
Proof.
  unfold news_params.
  destruct (ToBoolean (field a "category")) eqn:Htest.
  - pose proof (field_truthy_present _ _ Htest) as Hpresent.
    repeat split.
    + intros Hl. simplify_map_eq. by rewrite field_default_absent.
    + intros v Hl Hv. simplify_map_eq.
      by rewrite (field_default_present _ _ v).
    + simplify_map_eq. congruence.
    + simplify_map_eq. congruence.
    + intros [Hv _]. simplify_map_eq. congruence.
    + intros k Hk1 Hk2. by simplify_map_eq.
  - repeat split.
    + intros Hl. simplify_map_eq. by rewrite field_default_absent.
    + intros v Hl Hv. simplify_map_eq.
      by rewrite (field_default_present _ _ v).
    + by simplify_map_eq.
    + by simplify_map_eq.
    + intros [Hv Htrue]. rewrite (field_present _ _ _ Hv) in Htest.
      congruence.
    + intros k Hk1 Hk2. by simplify_map_eq.
Qed.

Section Requests.

Variable JSON_stringify : JSValue → JSValue.
Variable this : FantasyProsServer.

(** X8. [get_all_news] with an argument object always issues its one
    GET to [/json/all/news]; no argument can stop it.  The query has
    [limit], 25 when the argument is absent and the supplied value
    otherwise; it has [category], with the supplied value, exactly when
    that argument is truthy; and it has no other key (a [sport]
    argument, for one, is ignored). *)
Theorem get_all_news_request a w :
  ∃ req,
    requests (CallTool JSON_stringify this (call "get_all_news" a) w)
      = [req] ∧
    method req = "get" ∧
    url req = "/json/all/news" ∧
    (a !! "limit" = None → params req !! "limit" = Some (JNum 25)) ∧
    (∀ v, a !! "limit" = Some v → v ≠ JUndefined →
          params req !! "limit" = Some v) ∧
    (∀ v, params req !! "category" = Some v ↔
          a !! "category" = Some v ∧ ToBoolean v = true) ∧
    (∀ k, k ≠ "limit" → k ≠ "category" → params req !! k = None).
Proof.
  eexists. split; [apply get_all_news_requests|].
  split; [done|]. split; [done|]. apply news_params_spec.
Qed.

(** X9. The handlers do not check [limit] against the schema: in a
    request of [get_sport_news], the query carries a supplied [limit]
    as it is (out of the declared bounds, or not a number), and
    [category], with the supplied value, exactly when that argument is
    truthy; it has no other key. *)
Theorem get_sport_news_query a w req :
  req ∈ requests (CallTool JSON_stringify this (call "get_sport_news" a) w) →
  (∀ v, a !! "limit" = Some v → v ≠ JUndefined →
        params req !! "limit" = Some v) ∧
  (∀ v, params req !! "category" = Some v ↔
        a !! "category" = Some v ∧ ToBoolean v = true) ∧
  (∀ k, k ≠ "limit" → k ≠ "category" → params req !! k = None).
Proof.
  rewrite get_sport_news_requests.
  destruct (ToString (field a "sport")) as [sport|];
    [|by intros ?%elem_of_nil].
  intros ->%list_elem_of_singleton. simpl. apply news_params_spec.
Qed.

(** X10. In a request of [get_rankings] the query has exactly the keys
    [position] and [scoring].  Each carries the supplied argument as it
    is, also when that is falsy (an empty [position] is sent empty, not
    replaced), and the default, [ALL] or [STD], only when the argument
    is absent. *)
Theorem get_rankings_query a w req :
  req ∈ requests (CallTool JSON_stringify this (call "get_rankings" a) w) →
  dom (params req) = ({["position"; "scoring"]} : gset string) ∧
  (a !! "position" = None → params req !! "position" = Some (JStr "ALL")) ∧
  (a !! "scoring" = None → params req !! "scoring" = Some (JStr "STD")) ∧
  (∀ v, a !! "position" = Some v → v ≠ JUndefined →
        params req !! "position" = Some v) ∧
  (∀ v, a !! "scoring" = Some v → v ≠ JUndefined →
        params req !! "scoring" = Some v).
Proof.
  rewrite get_rankings_requests.
  destruct (ToString (field a "sport")) as [sport|];
    [|by intros ?%elem_of_nil].
  intros ->%list_elem_of_singleton. simpl. unfold rankings_params.
  split; [|repeat split].
  - rewrite dom_insert_L, dom_singleton_L. set_solver.
  - intros Hp. simplify_map_eq. by rewrite field_default_absent.
  - intros Hs. simplify_map_eq. by rewrite field_default_absent.
  - intros v Hp Hv. simplify_map_eq.
    by rewrite (field_default_present _ _ v).
  - intros v Hs Hv. simplify_map_eq.
    by rewrite (field_default_present _ _ v).
Qed.

(** X11. In a request of [get_projections] the query has [week], with
    the supplied value, exactly when that argument is truthy, and
    likewise [position]. *)
Theorem get_projections_query a w req :
  req ∈ requests
          (CallTool JSON_stringify this (call "get_projections" a) w) →
  (∀ v, params req !! "week" = Some v ↔
        a !! "week" = Some v ∧ ToBoolean v = true) ∧
  (∀ v, params req !! "position" = Some v ↔
        a !! "position" = Some v ∧ ToBoolean v = true).
Proof.
  rewrite get_projections_requests.
  destruct (ToString (field a "sport")) as [sport|],
           (ToString (field a "season")) as [season|];
    try by intros ?%elem_of_nil.
  intros ->%list_elem_of_singleton. simpl. unfold projections_params.
  destruct (ToBoolean (field a "week")) eqn:Hweek;
    destruct (ToBoolean (field a "position")) eqn:Hposition;
    try pose proof (field_truthy_present _ _ Hweek) as Hw;
    try pose proof (field_truthy_present _ _ Hposition) as Hp;
    split; intros v;
    rewrite ?lookup_insert_eq, ?lookup_insert_ne, ?lookup_singleton_eq,
      ?lookup_singleton_ne, ?lookup_empty by done;
    (split;
     [intros Heq; first [discriminate Heq | by injection Heq as <-]
     |intros [Hv Htrue];
      first [congruence
            |rewrite (field_present _ _ _ Hv) in *; congruence]]).
Qed.

(** X12. Any falsy value ([null], [false], 0, the empty string) for
    [category], [playerId], [week] or [position] of the tools that test
    them runs exactly as the call that omits the argument. *)
Theorem falsy_is_omitted a w v :
  ToBoolean v = false →
  CallTool JSON_stringify this
    (call "get_sport_news" (<["category" := v]> a)) w =
  CallTool JSON_stringify this
    (call "get_sport_news" (delete "category" a)) w ∧
  CallTool JSON_stringify this
    (call "get_all_news" (<["category" := v]> a)) w =
  CallTool JSON_stringify this
    (call "get_all_news" (delete "category" a)) w ∧
  CallTool JSON_stringify this
    (call "get_players" (<["playerId" := v]> a)) w =
  CallTool JSON_stringify this
    (call "get_players" (delete "playerId" a)) w ∧
  CallTool JSON_stringify this
    (call "get_projections" (<["week" := v]> a)) w =
  CallTool JSON_stringify this
    (call "get_projections" (delete "week" a)) w ∧
  CallTool JSON_stringify this
    (call "get_projections" (<["position" := v]> a)) w =
  CallTool JSON_stringify this
    (call "get_projections" (delete "position" a)) w.
Proof.
  intros Hv. repeat split; apply CallTool_ext; unfold call.
  - rewrite !dispatch_get_sport_news, !getNews_run.
    unfold news_params, field_default.
    rewrite field_insert_eq, field_delete_eq, Hv.
    by rewrite !field_insert_ne, !field_delete_ne.
  - rewrite !dispatch_get_all_news, !getAllNews_run.
    unfold news_params, field_default.
    rewrite field_insert_eq, field_delete_eq, Hv.
    by rewrite !field_insert_ne, !field_delete_ne.
  - rewrite !dispatch_get_players, !getPlayers_run. unfold players_params.
    rewrite field_insert_eq, field_delete_eq, Hv.
    by rewrite !field_insert_ne, !field_delete_ne.
  - rewrite !dispatch_get_projections, !getProjections_run.
    unfold projections_params.
    rewrite field_insert_eq, field_delete_eq, Hv.
    by rewrite !field_insert_ne, !field_delete_ne.
  - rewrite !dispatch_get_projections, !getProjections_run.
    unfold projections_params.
    rewrite field_insert_eq, field_delete_eq, Hv.
    by rewrite !field_insert_ne, !field_delete_ne.
Qed.

(** A name the registry does not list has no entry. *)
Lemma find_tool_not_listed n : n ∉ tool_names → find_tool n = None.
Proof.
  rewrite tool_names_eq, !not_elem_of_cons.
  intros (H1 & H2 & H3 & H4 & H5 & _).
  unfold find_tool, ListTools. cbn [List.find name].
  rewrite !(proj2 (String.eqb_neq _ _)); [done|congruence..].
Qed.

(** X13. The handlers read only the properties the schema of their tool
    declares: an argument under any other name changes nothing in the
    run, neither the request nor the outcome. *)
Theorem undeclared_arguments_are_ignored n ks k v a w :
  property_names n = Some ks →
  k ∉ ks →
  CallTool JSON_stringify this (call n (<[k:=v]> a)) w =
  CallTool JSON_stringify this (call n a) w.
Proof.
  intros Hks Hk. destruct (decide (n ∈ tool_names)) as [Hn|Hn].
  2: { unfold property_names in Hks.
       by rewrite (find_tool_not_listed _ Hn) in Hks. }
  revert Hn Hks Hk. rewrite tool_names_eq, !elem_of_cons, elem_of_nil.
  intros [->|[->|[->|[->|[->|[]]]]]] [= <-];
    rewrite !not_elem_of_cons; intros Hk; destruct_and!;
    apply CallTool_ext; unfold call.
  - rewrite !dispatch_get_sport_news, !getNews_run.
    unfold news_params, field_default.
    by rewrite !field_insert_ne by done.
  - rewrite !dispatch_get_players, !getPlayers_run. unfold players_params.
    by rewrite !field_insert_ne by done.
  - rewrite !dispatch_get_rankings, !getRankings_run.
    unfold rankings_params, field_default.
    by rewrite !field_insert_ne by done.
  - rewrite !dispatch_get_projections, !getProjections_run.
    unfold projections_params.
    by rewrite !field_insert_ne by done.
  - rewrite !dispatch_get_all_news, !getAllNews_run.
    unfold news_params, field_default.
    by rewrite !field_insert_ne by done.
Qed.

(** X14. The required fields are not enforced: a call without [sport]
    is not rejected, it asks for the path with [undefined] in the place
    of the sport (and of the season, for [get_projections] without
    [season]). *)
Theorem missing_sport_is_not_rejected a w :
  a !! "sport" = None →
  url <$> requests (CallTool JSON_stringify this
                      (call "get_sport_news" a) w)
    = ["/undefined/news"] ∧
  url <$> requests (CallTool JSON_stringify this (call "get_players" a) w)
    = ["/undefined/players"] ∧
  url <$> requests (CallTool JSON_stringify this (call "get_rankings" a) w)
    = ["/undefined/" +:+ pretty (getFullYear w) +:+ "/consensus-rankings"] ∧
  (a !! "season" = None →
   url <$> requests (CallTool JSON_stringify this
                       (call "get_projections" a) w)
     = ["/undefined/undefined/projections"]).
Proof.
  intros Hsport.
  rewrite get_sport_news_requests, get_players_requests,
    get_rankings_requests, get_projections_requests.
  rewrite (field_absent _ _ Hsport). simpl.
  repeat split. intros Hseason. by rewrite (field_absent _ _ Hseason).
Qed.

(** X15. A call that supplies every field its tool's schema requires,
    as a string, never fails before the HTTP call: it hands exactly one
    request to [axios.get], and its outcome is what the catch block
    makes of the way axios settles that request; answered, it is the
    wrapped body.  (Whether axios sends the request is axios's matter:
    an empty [sport] gives a path it may refuse.) *)
Theorem conforming_call_makes_one_get n ks a w :
  required_fields n = Some ks →
  (∀ k, k ∈ ks → ∃ s, a !! k = Some (JStr s)) →
  ∃ req,
    requests (CallTool JSON_stringify this (call n a) w) = [req] ∧
    CallTool JSON_stringify this (call n a) w =
      settled JSON_stringify req w ∧
    (∀ resp, upstream w req = inr resp →
       CallTool JSON_stringify this (call n a) w =
       (Returned (success JSON_stringify resp), [req])).
Proof.
  intros Hks Hall.
  assert (∃ req, dispatch JSON_stringify this (call n a) w =
                 round_trip JSON_stringify req w) as [req Hrun].
  { destruct (decide (n ∈ tool_names)) as [Hn|Hn].
    2: { unfold required_fields in Hks.
         by rewrite (find_tool_not_listed _ Hn) in Hks. }
    revert Hn Hks Hall. rewrite tool_names_eq, !elem_of_cons, elem_of_nil.
    intros [->|[->|[->|[->|[->|[]]]]]] [= <-] Hall; unfold call.
    - destruct (Hall "sport") as [s Hs]; [set_solver|].
      rewrite dispatch_get_sport_news, getNews_run, (field_present _ _ _ Hs).
      by eexists.
    - destruct (Hall "sport") as [s Hs]; [set_solver|].
      rewrite dispatch_get_players, getPlayers_run, (field_present _ _ _ Hs).
      by eexists.
    - destruct (Hall "sport") as [s Hs]; [set_solver|].
      rewrite dispatch_get_rankings, getRankings_run,
        (field_present _ _ _ Hs).
      by eexists.
    - destruct (Hall "sport") as [s Hs]; [set_solver|].
      destruct (Hall "season") as [s' Hs']; [set_solver|].
      rewrite dispatch_get_projections, getProjections_run,
        (field_present _ _ _ Hs), (field_present _ _ _ Hs').
      by eexists.
    - rewrite dispatch_get_all_news, getAllNews_run. by eexists. }
  exists req. rewrite (CallTool_settled _ _ _ _ _ Hrun).
  split; [apply settled_requests|]. split; [done|].
  intros resp Hup. unfold settled. by rewrite Hup.
Qed.

(** X16. The defaults the handlers fill in satisfy the schema the
    listing declares: the default [limit] of the two news tools lies
    within the declared bounds, and the default [scoring] of
    [get_rankings] is one of the declared values. *)
Theorem defaults_satisfy_schema a w req :
  (∀ n, n ∈ ["get_sport_news"; "get_all_news"] →
        a !! "limit" = None →
        req ∈ requests (CallTool JSON_stringify this (call n a) w) →
        ∃ z lo hi,
          params req !! "limit" = Some (JNum z) ∧
          bounds n "limit" = Some (lo, hi) ∧
          (lo ≤ z ≤ hi)%Z) ∧
  (a !! "scoring" = None →
   req ∈ requests (CallTool JSON_stringify this (call "get_rankings" a) w) →
   ∃ s values,
     params req !! "scoring" = Some (JStr s) ∧
     allowed_values "get_rankings" "scoring" = Some values ∧
     s ∈ values).
Proof.
  split.
  - intros n Hn Hlimit Hreq. exists 25%Z, 1%Z, 25%Z.
    destruct (news_params_spec a) as (H25 & _).
    revert Hn Hreq. rewrite !elem_of_cons, elem_of_nil.
    intros [->|[->|[]]].
    + rewrite get_sport_news_requests.
      destruct (ToString (field a "sport")); [|by intros ?%elem_of_nil].
      intros ->%list_elem_of_singleton. simpl. by rewrite H25.
    + rewrite get_all_news_requests.
      intros ->%list_elem_of_singleton. simpl. by rewrite H25.
  - intros Hscoring. rewrite get_rankings_requests.
    destruct (ToString (field a "sport")); [|by intros ?%elem_of_nil].
    intros ->%list_elem_of_singleton. simpl. unfold rankings_params.
    exists "STD", ["STD"; "PPR"; "HALF"].
    rewrite lookup_insert_ne, lookup_singleton_eq by done.
    rewrite (field_default_absent _ _ _ Hscoring).
    split; [done|]. split; [done|]. set_solver.
Qed.

End Requests.

(** X17. Startup succeeds exactly when the environment has a non-empty
    API key (an empty one is refused like a missing one), and the server
    it yields is the one built from that key. *)
Theorem startup_succeeds_iff (env : gmap string string) :
  ((∃ server, startup env = inr server) ↔
   (∃ key, env !! "FANTASYPROS_API_KEY" = Some key ∧ key ≠ "")) ∧
  (∀ server, startup env = inr server →
     ∃ key, env !! "FANTASYPROS_API_KEY" = Some key ∧
            server = new_FantasyProsServer (JStr key)).
Proof.
  unfold startup, API_KEY.
  destruct (env !! "FANTASYPROS_API_KEY") as [key|]; simpl.
  - destruct (String.eqb_spec key "") as [->|Hkey]; simpl.
    + split; [|done]. split; [by intros [? ?]|].
      by intros (key & [= <-] & Hne).
    + split.
      * split; [by exists key|by eexists].
      * intros server [= <-]. by exists key.
  - split; [|done]. split; [by intros [? ?]|by intros (? & ? & _)].
Qed.

(** ** Closed instances of the further properties *)

(** X1 at [get_sport_news] for the NFL, answered with an empty list. *)
Lemma upstream_answer_is_passed_through_witness :
  request sample_server "/nfl/news" {["limit" := JNum 25]}
  ∈ requests (CallTool stringify_none sample_server
                (call "get_sport_news" nfl_only) (answering_world 2026)) ∧
  upstream (answering_world 2026)
    (request sample_server "/nfl/news" {["limit" := JNum 25]})
  = inr {| status := 200; data := JArr [] |} ∧
  CallTool stringify_none sample_server (call "get_sport_news" nfl_only)
    (answering_world 2026) =
  (Returned {| content := [{| type := "text";
                              text := stringify_none (JArr []) |}];
               isError := None |},
   [request sample_server "/nfl/news" {["limit" := JNum 25]}]).
Proof.
  assert (Hreq :
    request sample_server "/nfl/news" {["limit" := JNum 25]}
    ∈ requests (CallTool stringify_none sample_server
                  (call "get_sport_news" nfl_only) (answering_world 2026)))
    by (vm_compute; apply list_elem_of_here).
  split; [exact Hreq|]. split; [reflexivity|].
  exact (upstream_answer_is_passed_through stringify_none sample_server
           (call "get_sport_news" nfl_only) (answering_world 2026)
           _ {| status := 200; data := JArr [] |} Hreq eq_refl).
Defined.

(** X3 at [{ sport: "" }], in a world where axios rejects the request
    with a [TypeError] of its own. *)
Lemma thrown_errors_witness :
  (CallTool stringify_none sample_server
     (call "get_sport_news" blank_sport)
     (refusing_world 2026 TypeError)).1 = Thrown TypeError ∧
  isAxiosError TypeError = None ∧
  ((∃ req,
      requests (CallTool stringify_none sample_server
                  (call "get_sport_news" blank_sport)
                  (refusing_world 2026 TypeError)) = [req] ∧
      upstream (refusing_world 2026 TypeError) req = inl TypeError) ∨
   TypeError = TypeError ∧ "get_sport_news" ∈ tool_names ∨
   TypeError =
     McpError MethodNotFound ("Unknown tool: " +:+ "get_sport_news") ∧
   ("get_sport_news" ∉ tool_names) ∧
   requests (CallTool stringify_none sample_server
               (call "get_sport_news" blank_sport)
               (refusing_world 2026 TypeError)) = []).
Proof.
  split; [reflexivity|].
  exact (thrown_errors stringify_none sample_server
           (call "get_sport_news" blank_sport)
           (refusing_world 2026 TypeError) TypeError eq_refl).
Defined.

(** X4 at [get_all_news] under a transport failure. *)
Lemma returned_results_witness :
  (CallTool stringify_none sample_server (call "get_all_news" ∅)
     (failing_world 2026 network_error)).1
  = Returned (error_result "Network Error") ∧
  ∃ req,
    requests (CallTool stringify_none sample_server (call "get_all_news" ∅)
                (failing_world 2026 network_error)) = [req] ∧
    match upstream (failing_world 2026 network_error) req with
    | inl error =>
        isError (error_result "Network Error") = Some true ∧
        ∃ err m,
          error = AxiosErr err ∧
          ToString (error_message err) = Some m ∧
          content (error_result "Network Error") =
            [{| type := "text";
                text := JStr ("FantasyPros API error: " +:+ m) |}]
    | inr resp =>
        isError (error_result "Network Error") = None ∧
        content (error_result "Network Error") =
          [{| type := "text"; text := stringify_none (data resp) |}]
    end.
Proof.
  split; [reflexivity|].
  exact (returned_results stringify_none sample_server
           (call "get_all_news" ∅) (failing_world 2026 network_error)
           (error_result "Network Error") eq_refl).
Defined.

(** X5 at [get_all_news] without arguments. *)
Lemma call_without_arguments_witness :
  params_arguments
    {| params_name := "get_all_news"; params_arguments := None |} = None ∧
  CallTool stringify_none sample_server
    {| params_name := "get_all_news"; params_arguments := None |}
    (answering_world 2026) = (Thrown TypeError, []).
Proof.
  split; [reflexivity|].
  exact (call_without_arguments stringify_none sample_server
           {| params_name := "get_all_news"; params_arguments := None |}
           (answering_world 2026) eq_refl).
Defined.

(** X6 at a 500 whose body is [{ "message": { "toString": 1 } }]. *)
Lemma unprintable_upstream_message_witness :
  request sample_server "/json/all/news" {["limit" := JNum 25]}
  ∈ requests (CallTool stringify_none sample_server (call "get_all_news" ∅)
                (failing_world 2026 unprintable_message_error)) ∧
  upstream (failing_world 2026 unprintable_message_error)
    (request sample_server "/json/all/news" {["limit" := JNum 25]})
  = inl (AxiosErr unprintable_message_error) ∧
  message_field unprintable_message_error = Some unprintable ∧
  ToBoolean unprintable = true ∧
  ToString unprintable = None ∧
  CallTool stringify_none sample_server (call "get_all_news" ∅)
    (failing_world 2026 unprintable_message_error) =
  (Thrown TypeError,
   [request sample_server "/json/all/news" {["limit" := JNum 25]}]).
Proof.
  assert (Hreq :
    request sample_server "/json/all/news" {["limit" := JNum 25]}
    ∈ requests (CallTool stringify_none sample_server
                  (call "get_all_news" ∅)
                  (failing_world 2026 unprintable_message_error)))
    by (vm_compute; apply list_elem_of_here).
  split; [exact Hreq|]. repeat (split; [reflexivity|]).
  exact (unprintable_upstream_message stringify_none sample_server
           (call "get_all_news" ∅)
           (failing_world 2026 unprintable_message_error)
           _ unprintable_message_error unprintable
           Hreq eq_refl eq_refl eq_refl eq_refl).
Defined.

(** X7 at [get_rankings]. *)
Lemma unprintable_sport_witness :
  "get_rankings" ∈ tool_names ∧
  "get_rankings" ≠ "get_all_news" ∧
  ToString (field {["sport" := unprintable]} "sport") = None ∧
  CallTool stringify_none sample_server
    (call "get_rankings" {["sport" := unprintable]}) (answering_world 2026)
  = (Thrown TypeError, []).
Proof.
  assert (Hn : "get_rankings" ∈ tool_names)
    by (apply (bool_decide_unpack _); vm_compute; exact I).
  assert (Hne : "get_rankings" ≠ "get_all_news") by discriminate.
  split; [exact Hn|]. split; [exact Hne|]. split; [reflexivity|].
  exact (unprintable_sport stringify_none sample_server "get_rankings"
           {["sport" := unprintable]} (answering_world 2026)
           Hn Hne eq_refl).
Defined.

(** X9 at [{ sport: "nfl", limit: 100 }]: the limit goes out as 100. *)
Lemma get_sport_news_query_witness :
  request sample_server "/nfl/news" {["limit" := JNum 100]}
  ∈ requests (CallTool stringify_none sample_server
                (call "get_sport_news" (<["sport" := JStr "nfl"]> limit_100))
                (answering_world 2026)) ∧
  (<["sport" := JStr "nfl"]> limit_100 : gmap string JSValue) !! "limit"
  = Some (JNum 100) ∧
  params (request sample_server "/nfl/news" {["limit" := JNum 100]})
    !! "limit" = Some (JNum 100).
Proof.
  assert (Hreq :
    request sample_server "/nfl/news" {["limit" := JNum 100]}
    ∈ requests (CallTool stringify_none sample_server
                  (call "get_sport_news"
                     (<["sport" := JStr "nfl"]> limit_100))
                  (answering_world 2026)))
    by (vm_compute; apply list_elem_of_here).
  split; [exact Hreq|]. split; [reflexivity|].
  exact (proj1 (get_sport_news_query stringify_none sample_server
                  (<["sport" := JStr "nfl"]> limit_100)
                  (answering_world 2026) _ Hreq)
           (JNum 100) eq_refl ltac:(discriminate)).
Defined.

(** X10 at [{ sport: "nfl", position: "", scoring: "PPR" }]: the empty
    position goes out empty. *)
Lemma get_rankings_query_witness :
  request sample_server "/nfl/2026/consensus-rankings"
    {["position" := JStr ""; "scoring" := JStr "PPR"]}
  ∈ requests (CallTool stringify_none sample_server
                (call "get_rankings" nfl_blank_position)
                (answering_world 2026)) ∧
  nfl_blank_position !! "position" = Some (JStr "") ∧
  params (request sample_server "/nfl/2026/consensus-rankings"
            {["position" := JStr ""; "scoring" := JStr "PPR"]})
    !! "position" = Some (JStr "").
Proof.
  assert (Hreq :
    request sample_server "/nfl/2026/consensus-rankings"
      {["position" := JStr ""; "scoring" := JStr "PPR"]}
    ∈ requests (CallTool stringify_none sample_server
                  (call "get_rankings" nfl_blank_position)
                  (answering_world 2026)))
    by (vm_compute; apply list_elem_of_here).
  split; [exact Hreq|]. split; [reflexivity|].
  exact (proj1 (proj2 (proj2 (proj2
           (get_rankings_query stringify_none sample_server
              nfl_blank_position (answering_world 2026) _ Hreq))))
           (JStr "") eq_refl ltac:(discriminate)).
Defined.

(** X11 at [{ sport: "nfl", season: "2024", week: "3" }]. *)
Lemma get_projections_query_witness :
  request sample_server "/nfl/2024/projections" {["week" := JStr "3"]}
  ∈ requests (CallTool stringify_none sample_server
                (call "get_projections" nfl_week_3)
                (answering_world 2026)) ∧
  (∀ v, params (request sample_server "/nfl/2024/projections"
                  {["week" := JStr "3"]}) !! "week" = Some v ↔
        nfl_week_3 !! "week" = Some v ∧ ToBoolean v = true).
Proof.
  assert (Hreq :
    request sample_server "/nfl/2024/projections" {["week" := JStr "3"]}
    ∈ requests (CallTool stringify_none sample_server
                  (call "get_projections" nfl_week_3)
                  (answering_world 2026)))
    by (vm_compute; apply list_elem_of_here).
  split; [exact Hreq|].
  exact (proj1 (get_projections_query stringify_none sample_server
                  nfl_week_3 (answering_world 2026) _ Hreq)).
Defined.

(** X12 at [null]. *)
Lemma falsy_is_omitted_witness :
  ToBoolean JNull = false ∧
  CallTool stringify_none sample_server
    (call "get_players" (<["playerId" := JNull]> nfl_only))
    (answering_world 2026) =
  CallTool stringify_none sample_server
    (call "get_players" (delete "playerId" nfl_only))
    (answering_world 2026).
Proof.
  split; [reflexivity|].
  exact (proj1 (proj2 (proj2
           (falsy_is_omitted stringify_none sample_server nfl_only
              (answering_world 2026) JNull eq_refl)))).
Defined.

(** X13 at a [season] argument of [get_rankings], which reads the year
    from the clock. *)
Lemma undeclared_arguments_are_ignored_witness :
  property_names "get_rankings" = Some ["sport"; "position"; "scoring"] ∧
  ("season" ∉ ["sport"; "position"; "scoring"]) ∧
  CallTool stringify_none sample_server
    (call "get_rankings" (<["season" := JStr "2019"]> nfl_only))
    (answering_world 2026) =
  CallTool stringify_none sample_server
    (call "get_rankings" nfl_only) (answering_world 2026).
Proof.
  assert (Hk : "season" ∉ ["sport"; "position"; "scoring"])
    by (apply (bool_decide_unpack _); vm_compute; exact I).
  split; [reflexivity|]. split; [exact Hk|].
  exact (undeclared_arguments_are_ignored stringify_none sample_server
           "get_rankings" ["sport"; "position"; "scoring"] "season"
           (JStr "2019") nfl_only (answering_world 2026) eq_refl Hk).
Defined.

(** X14 at the empty argument object. *)
Lemma missing_sport_is_not_rejected_witness :
  (∅ : gmap string JSValue) !! "sport" = None ∧
  url <$> requests (CallTool stringify_none sample_server
                      (call "get_sport_news" ∅) (answering_world 2026))
    = ["/undefined/news"].
Proof.
  split; [reflexivity|].
  exact (proj1 (missing_sport_is_not_rejected stringify_none sample_server
                  ∅ (answering_world 2026) eq_refl)).
Defined.

(** X15 at [get_projections] with [{ sport: "nba", season: "2024" }]. *)
Lemma conforming_call_makes_one_get_witness :
  required_fields "get_projections" = Some ["sport"; "season"] ∧
  (∀ k, k ∈ ["sport"; "season"] → ∃ s, nba_2024 !! k = Some (JStr s)) ∧
  ∃ req,
    requests (CallTool stringify_none sample_server
                (call "get_projections" nba_2024) (answering_world 2026))
    = [req] ∧
    CallTool stringify_none sample_server
      (call "get_projections" nba_2024) (answering_world 2026) =
      settled stringify_none req (answering_world 2026) ∧
    (∀ resp, upstream (answering_world 2026) req = inr resp →
       CallTool stringify_none sample_server
         (call "get_projections" nba_2024) (answering_world 2026) =
       (Returned (success stringify_none resp), [req])).
Proof.
  assert (Hall : ∀ k, k ∈ ["sport"; "season"] →
                      ∃ s, nba_2024 !! k = Some (JStr s)).
  { intros k. rewrite !elem_of_cons, elem_of_nil.
    intros [->|[->|[]]]; by eexists. }
  split; [reflexivity|]. split; [exact Hall|].
  exact (conforming_call_makes_one_get stringify_none sample_server
           "get_projections" ["sport"; "season"] nba_2024
           (answering_world 2026) eq_refl Hall).
Defined.

(** X16 at [get_all_news] with no arguments. *)
Lemma defaults_satisfy_schema_witness :
  "get_all_news" ∈ ["get_sport_news"; "get_all_news"] ∧
  (∅ : gmap string JSValue) !! "limit" = None ∧
  request sample_server "/json/all/news" {["limit" := JNum 25]}
  ∈ requests (CallTool stringify_none sample_server (call "get_all_news" ∅)
                (answering_world 2026)) ∧
  ∃ z lo hi,
    params (request sample_server "/json/all/news" {["limit" := JNum 25]})
      !! "limit" = Some (JNum z) ∧
    bounds "get_all_news" "limit" = Some (lo, hi) ∧
    (lo ≤ z ≤ hi)%Z.
Proof.
  assert (Hn : "get_all_news" ∈ ["get_sport_news"; "get_all_news"])
    by (apply (bool_decide_unpack _); vm_compute; exact I).
  assert (Hreq :
    request sample_server "/json/all/news" {["limit" := JNum 25]}
    ∈ requests (CallTool stringify_none sample_server
                  (call "get_all_news" ∅) (answering_world 2026)))
    by (vm_compute; apply list_elem_of_here).
  split; [exact Hn|]. split; [reflexivity|]. split; [exact Hreq|].
  exact (proj1 (defaults_satisfy_schema stringify_none sample_server ∅
                  (answering_world 2026) _)
           "get_all_news" Hn eq_refl Hreq).
Defined.
